(** * VerticalPodAutoscaler metric families of kube-state-metrics

    A shallow embedding of [internal/store/verticalpodautoscaler.go]
    (package [store]) and the properties of its generators, of the
    resource conversion [vpaResourcesToMetrics], of the default-label
    wrapper [wrapVPAFunc] and of the list/watch factory
    [createVPAListWatchFunc].

    Conventions of the embedding:
    - a Go pointer [*T] is an [option T] ([None] is [nil]);
    - a Go [map[string]V] is a [gmap string V] (the nil map is [∅]); a
      [range] over a map visits its entries in an order the runtime chooses,
      so code that ranges over a map is a relation between its inputs and
      its possible results;
    - a Go slice that the code compares with [nil] is an [option (list T)],
      any other slice is a [list T];
    - an [int64] is a [Z] (no arithmetic is done on it before it is converted
      to a float); [float64] is IEEE 754 binary64 as [SpecFloat] specifies it;
    - a run-time panic is the [Panics] outcome. *)

From Stdlib Require Import ZArith Ascii String Floats.SpecFloat.
From stdpp Require Import gmap strings list sorting.

(** ** Outcomes of a call: a returned value or a run-time panic *)

Inductive panic : Type :=
| TypeAssertionFailed      (* x.(T) on a value whose dynamic type is not T *)
| NilPointerDereference.   (* field access through a nil pointer *)

Inductive outcome (A : Type) : Type :=
| Returns (a : A)
| Panics (p : panic).
Arguments Returns {A} a.
Arguments Panics {A} p.

(** ** float64 *)

Module Float64.
Definition prec : Z := 53.
Definition emax : Z := 1024.

(** [float64(i)] for an integer [i]: rounding to nearest, ties to even. *)
Definition of_int (i : Z) : spec_float := binary_normalize prec emax i 0 false.

(** [x / y] on float64. *)
Definition div (x y : spec_float) : spec_float := SFdiv prec emax x y.

(** [represents x num den]: the float [x] is finite and the real number it
    stands for, [(-1)^s * m * 2^e], is exactly [num / den]. *)
Definition represents (x : spec_float) (num den : Z) : Prop :=
  match x with
  | S754_zero _ => num = 0%Z /\ (0 < den)%Z
  | S754_finite s m e =>
      (0 < den)%Z /\
      ((0 <= e /\ num = cond_Zopp s (Z.pos m) * 2 ^ e * den)%Z \/
       (e < 0 /\ cond_Zopp s (Z.pos m) * den = num * 2 ^ (- e))%Z)
  | _ => False
  end.

(** The float [x] stands for exactly the integer [z]. *)
Definition is_integer (x : spec_float) (z : Z) : Prop := represents x z 1.

(** The floats 1, 0 and 0.5. *)
Definition one : spec_float := S754_finite false 4503599627370496 (-52).
Definition zero : spec_float := S754_zero false.
Definition half : spec_float := S754_finite false 4503599627370496 (-53).
End Float64.

Abbreviation float64 := spec_float.

(** ** k8s.io/apimachinery/pkg/api/resource *)

Module resource.
(** The code observes a [resource.Quantity] only through its methods
    [MilliValue()] and [Value()], both of which return an [int64]; a quantity
    is represented by these two results. *)
Record Quantity : Type := { MilliValue : Z; Value : Z }.

(** The quantity of [m] thousandths, such as ["500m"] ([m = 500]) or
    ["128Mi"] ([m = 134217728000]): [MilliValue()] is [m] and [Value()]
    rounds [m / 1000] up to the nearest integer away from zero. *)
Definition ofMilli (m : Z) : Quantity :=
  {| MilliValue := m;
     Value := if (0 <=? m)%Z then (- ((- m) / 1000))%Z else (m / 1000)%Z |}.
End resource.

(** ** k8s.io/api/core/v1 *)

Module v1.
Definition ResourceName := string.
Definition ResourceCPU : ResourceName := "cpu".
Definition ResourceMemory : ResourceName := "memory".
Definition ResourceStorage : ResourceName := "storage".
Definition ResourceEphemeralStorage : ResourceName := "ephemeral-storage".
Abbreviation ResourceList := (gmap string resource.Quantity).
End v1.

(** ** k8s.io/apimachinery/pkg/apis/meta/v1 *)

Module metav1.
Record ObjectMeta : Type := {
  Name : string;
  Namespace : string;
  Labels : gmap string string;
  Annotations : gmap string string
}.

(** [ListOptions], by the fields that select what is listed or watched. *)
Record ListOptions : Type := {
  LabelSelector : string;
  FieldSelector : string;
  ResourceVersion : string
}.
End metav1.

(** ** k8s.io/api/autoscaling/v1 *)

Module autoscalingv1.
Record CrossVersionObjectReference : Type := {
  Kind : string;
  Name : string;
  APIVersion : string
}.

(** [&autoscalingv1.CrossVersionObjectReference{}] *)
Definition zero : CrossVersionObjectReference :=
  {| Kind := ""; Name := ""; APIVersion := "" |}.
End autoscalingv1.

(** ** k8s.io/autoscaler/.../autoscaling.k8s.io/v1beta2 *)

(** Two field names are changed because a module holds one name once: the
    field [UpdateMode] of [PodUpdatePolicy] is [UpdateMode_] (the type has the
    name), and the field [ContainerName] of [ContainerResourcePolicy] is
    [PolicyContainerName]. *)
Module autoscaling.
Definition UpdateMode := string.
Definition UpdateModeOff : UpdateMode := "Off".
Definition UpdateModeInitial : UpdateMode := "Initial".
Definition UpdateModeRecreate : UpdateMode := "Recreate".
Definition UpdateModeAuto : UpdateMode := "Auto".

Record PodUpdatePolicy : Type := { UpdateMode_ : option UpdateMode }.

Record ContainerResourcePolicy : Type := {
  PolicyContainerName : string;
  MinAllowed : gmap string resource.Quantity;
  MaxAllowed : gmap string resource.Quantity
}.

Record PodResourcePolicy : Type := {
  ContainerPolicies : option (list ContainerResourcePolicy)
}.

Record VerticalPodAutoscalerSpec : Type := {
  TargetRef : option autoscalingv1.CrossVersionObjectReference;
  UpdatePolicy : option PodUpdatePolicy;
  ResourcePolicy : option PodResourcePolicy
}.

Record RecommendedContainerResources : Type := {
  ContainerName : string;
  Target : gmap string resource.Quantity;
  LowerBound : gmap string resource.Quantity;
  UpperBound : gmap string resource.Quantity;
  UncappedTarget : gmap string resource.Quantity
}.

Record RecommendedPodResources : Type := {
  ContainerRecommendations : option (list RecommendedContainerResources)
}.

Record VerticalPodAutoscalerStatus : Type := {
  Recommendation : option RecommendedPodResources
}.

Record VerticalPodAutoscaler : Type := {
  ObjectMeta : metav1.ObjectMeta;
  Spec : VerticalPodAutoscalerSpec;
  Status : VerticalPodAutoscalerStatus
}.
End autoscaling.

(** An [interface{}] value as the wrapper sees it: its dynamic type is
    [*autoscaling.VerticalPodAutoscaler] (the pointer may be nil), or it is
    the nil interface, or it has some other dynamic type. *)
Inductive object : Type :=
| VPAObject (p : option autoscaling.VerticalPodAutoscaler)
| NilObject
| OtherObject (dynamicType : string).

(** ** k8s.io/kube-state-metrics/v2/pkg/metric *)

(** Modelled from the spec: the types of package [metric], which lives
    elsewhere in the repository. A metric is an ordered key sequence, a
    parallel ordered value sequence and a numeric value; a family is an
    ordered sequence of metrics; the kinds are Gauge, Counter, Info and
    StateSet. The field names are those the code of this file uses. *)
Module metric.
Inductive Type_ : Type := Gauge | Counter | Info | StateSet.

Record Metric : Type := {
  LabelKeys : list string;
  LabelValues : list string;
  Value : float64
}.

Record Family : Type := { Metrics : list Metric }.
End metric.

(** A generator function (from an [interface{}] value to a family pointer)
    and a typed extraction function (from a VerticalPodAutoscaler pointer to
    a family pointer): the possible outcomes of a call. Every function of
    this file returns a freshly allocated, non-nil family whose metrics are
    freshly allocated as well, so a family is represented by its contents. *)
Definition GenerateFunc : Type := object -> outcome metric.Family -> Prop.
Definition TypedFunc : Type :=
  option autoscaling.VerticalPodAutoscaler -> outcome metric.Family -> Prop.

(** ** k8s.io/kube-state-metrics/v2/pkg/metric_generator *)

(** Modelled from the spec: the [FamilyGenerator] record of package
    [metric_generator] and its constructor, which live elsewhere in the
    repository: an immutable record of a unique name, a help text, a kind, an
    optional deprecation marker and the extraction function. (The fields
    [Type] and [GenerateFunc] carry an underscore: the first is a keyword, the
    second the name of the function type.) *)
Module generator.
Record FamilyGenerator : Type := {
  Name : string;
  Help : string;
  Type_ : metric.Type_;
  DeprecatedVersion : string;
  GenerateFunc_ : GenerateFunc
}.

Definition NewFamilyGenerator (name help : string) (t : metric.Type_)
    (deprecatedVersion : string) (generateFunc : GenerateFunc) : FamilyGenerator :=
  {| Name := name; Help := help; Type_ := t;
     DeprecatedVersion := deprecatedVersion; GenerateFunc_ := generateFunc |}.
End generator.

(** ** k8s.io/kube-state-metrics/v2/pkg/constant *)

(** Modelled from the spec: the unit strings of package [constant], which
    lives elsewhere in the repository; the conversion example of the spec
    names them ["core"] and ["byte"]. *)
Module constant.
Definition UnitCore : string := "core".
Definition UnitByte : string := "byte".
End constant.

(** * Package store *)

(** ** Helpers of the package that live in other files *)

(** The character classes of [sanitizeLabelName]: [A-Za-z], [0-9] and the
    underscore. *)
Definition isLetter (c : ascii) : bool :=
  let n := N_of_ascii c in
  ((65 <=? n) && (n <=? 90) || (97 <=? n) && (n <=? 122))%N.

Definition isDigit (c : ascii) : bool :=
  let n := N_of_ascii c in ((48 <=? n) && (n <=? 57))%N.

Definition isUnderscore (c : ascii) : bool := (N_of_ascii c =? 95)%N.

Fixpoint replaceInvalid (s : string) : string :=
  match s with
  | EmptyString => EmptyString
  | String c s' =>
      String (if isLetter c || isDigit c || isUnderscore c then c else "_"%char)
             (replaceInvalid s')
  end.

(** Modelled from the spec: [sanitizeLabelName], defined in another file of
    the package. Any character outside [A-Za-z0-9_] becomes an underscore;
    if the result does not start with a letter or an underscore, an
    underscore is put in front. *)
Definition sanitizeLabelName (s : string) : string :=
  let r := replaceInvalid s in
  match r with
  | String c _ => if isLetter c || isUnderscore c then r else String "_"%char r
  | EmptyString => String "_"%char r
  end.

(** Modelled from the spec: the wildcard sentinel of an allow-list (an
    allow-list is the wildcard or an explicit list of keys). *)
Definition LabelWildcard : string := "*".

(** The label key of a source key: the prefix, an underscore and the
    sanitized key. *)
Definition labelName (prefix k : string) : string :=
  prefix +:+ "_" +:+ sanitizeLabelName k.

(** One step of the composition: an entry whose label key is already
    present is dropped (the first one seen wins), any other is appended to
    both sequences. *)
Definition composeStep (prefix : string) (acc : list string * list string)
    (e : string * string) : list string * list string :=
  let lk := labelName prefix e.1 in
  if decide (lk ∈ acc.1) then acc else (acc.1 ++ [lk], acc.2 ++ [e.2]).

(** The lexicographic order of the sanitized keys. *)
Definition sanitizedLe (e1 e2 : string * string) : Prop :=
  String.leb (sanitizeLabelName e1.1) (sanitizeLabelName e2.1) = true.

#[global] Instance sanitizedLe_dec e1 e2 : Decision (sanitizedLe e1 e2).
Proof. unfold sanitizedLe. apply _. Defined.

(** The entries that pass the allow-list, in the active ordering: under the
    wildcard every entry, sorted by sanitized key; otherwise the listed keys
    that the map has, in the order of the allow-list. *)
Definition allowedEntries (allKubeData : gmap string string)
    (allowList : list string) : list (string * string) :=
  if decide (allowList = [LabelWildcard])
  then merge_sort sanitizedLe (map_to_list allKubeData)
  else omap (fun k => (fun v => (k, v)) <$> allKubeData !! k) allowList.

(** Modelled from the spec: the label composer
    [createPrometheusLabelKeysValues], defined in another file of the
    package. From a string map, an allow-list and a key prefix it builds two
    parallel sequences of label keys and label values; two source keys that
    sanitize to the same label key keep the first one only; an empty map or
    an empty allow-list gives empty sequences. (Among source keys with the
    same sanitized key the spec leaves the order under the wildcard open;
    here it is the order the sort leaves them in.) *)
Definition createPrometheusLabelKeysValues (prefix : string)
    (allKubeData : gmap string string) (allowList : list string)
    : list string * list string :=
  foldl (composeStep prefix) ([], []) (allowedEntries allKubeData allowList).

(** ** verticalpodautoscaler.go *)

Definition descVerticalPodAutoscalerAnnotationsName : string :=
  "kube_verticalpodautoscaler_annotations".
Definition descVerticalPodAutoscalerAnnotationsHelp : string :=
  "Kubernetes annotations converted to Prometheus labels.".
Definition descVerticalPodAutoscalerLabelsName : string :=
  "kube_verticalpodautoscaler_labels".
Definition descVerticalPodAutoscalerLabelsHelp : string :=
  "Kubernetes labels converted to Prometheus labels.".
Definition descVerticalPodAutoscalerLabelsDefaultLabels : list string :=
  ["namespace"; "verticalpodautoscaler"; "target_api_version"; "target_kind";
   "target_name"].

(** *** Metrics behind pointers

    A family holds pointers to its metrics, and both [vpaResourcesToMetrics]
    and [wrapVPAFunc] end with a loop that assigns to fields of every metric
    through its pointer. On a store of metrics such a loop is [updateEach];
    every metric of this file is allocated by a composite literal of its own,
    so the pointers of a family are pairwise distinct, and then the loop
    changes the contents of the family as a map over a list does
    ([updateEach_distinct] below). The functions of this file are therefore
    given on the contents of a family. *)
Abbreviation store := (gmap nat metric.Metric).

Definition updateEach (g : metric.Metric -> metric.Metric) (ptrs : list nat)
    (h : store) : store :=
  foldl (fun h p => alter g p h) h ptrs.

Definition contents (h : store) (ptrs : list nat) : list metric.Metric :=
  omap (fun p => h !! p) ptrs.

(** *** vpaResourcesToMetrics *)

(** [for k, v := range m]: the entries of [m], each once, in the order the
    runtime visits them. *)
Definition mapRange {V : Type} (m : gmap string V) (entries : list (string * V)) : Prop :=
  entries ≡ₚ map_to_list m.

(** The body of the first loop: the [switch] on the resource name appends
    one metric (whose [LabelKeys] is still nil) or nothing. *)
Definition switchResourceName (containerName : string) (ms : list metric.Metric)
    (entry : string * resource.Quantity) : list metric.Metric :=
  let '(resourceName, val) := entry in
  if decide (resourceName = v1.ResourceCPU) then
    ms ++ [ {| metric.LabelKeys := [];
               metric.LabelValues :=
                 [containerName; sanitizeLabelName resourceName; constant.UnitCore];
               metric.Value :=
                 Float64.div (Float64.of_int (resource.MilliValue val))
                             (Float64.of_int 1000) |} ]
  else if decide (resourceName = v1.ResourceStorage
                  ∨ resourceName = v1.ResourceEphemeralStorage
                  ∨ resourceName = v1.ResourceMemory) then
    ms ++ [ {| metric.LabelKeys := [];
               metric.LabelValues :=
                 [containerName; sanitizeLabelName resourceName; constant.UnitByte];
               metric.Value := Float64.of_int (resource.Value val) |} ]
  else ms.

(** The body of the second loop: [metric.LabelKeys = ...]. *)
Definition setLabelKeys (m : metric.Metric) : metric.Metric :=
  {| metric.LabelKeys := ["container"; "resource"; "unit"];
     metric.LabelValues := metric.LabelValues m;
     metric.Value := metric.Value m |}.

(** The two loops, run on the entries in the order [entries]. *)
Definition resourcesToMetricsIn (containerName : string)
    (entries : list (string * resource.Quantity)) : list metric.Metric :=
  let ms := foldl (switchResourceName containerName) [] entries in
  setLabelKeys <$> ms.

(** [vpaResourcesToMetrics]: the possible results, one for every order in
    which the runtime may visit [resources]. *)
Inductive vpaResourcesToMetrics (containerName : string)
    (resources : v1.ResourceList) : list metric.Metric -> Prop :=
| vpaResourcesToMetrics_intro entries :
    mapRange resources entries ->
    vpaResourcesToMetrics containerName resources
      (resourcesToMetricsIn containerName entries).

(** *** The typed extraction functions of vpaMetricFamilies *)

(** A closure that reads a field of its argument [a] first: on a nil
    pointer it panics, otherwise it returns one of the families [body a]
    allows. *)
Definition onVPA (body : autoscaling.VerticalPodAutoscaler -> metric.Family -> Prop)
    : TypedFunc :=
  fun p o =>
    match p with
    | None => o = Panics NilPointerDereference
    | Some a => exists fam, body a fam /\ o = Returns fam
    end.

Definition annotationsFunc (allowAnnotationsList : list string) : TypedFunc :=
  onVPA (fun a fam =>
    let '(annotationKeys, annotationValues) :=
      createPrometheusLabelKeysValues "annotation"
        (metav1.Annotations (autoscaling.ObjectMeta a)) allowAnnotationsList in
    fam = {| metric.Metrics :=
               [ {| metric.LabelKeys := annotationKeys;
                    metric.LabelValues := annotationValues;
                    metric.Value := Float64.of_int 1 |} ] |}).

Definition labelsFunc (allowLabelsList : list string) : TypedFunc :=
  onVPA (fun a fam =>
    let '(labelKeys, labelValues) :=
      createPrometheusLabelKeysValues "label"
        (metav1.Labels (autoscaling.ObjectMeta a)) allowLabelsList in
    fam = {| metric.Metrics :=
               [ {| metric.LabelKeys := labelKeys;
                    metric.LabelValues := labelValues;
                    metric.Value := Float64.of_int 1 |} ] |}).

(** The body of the loop over the four update modes. *)
Definition appendUpdateMode (objectMode : autoscaling.UpdateMode)
    (ms : list metric.Metric) (mode : autoscaling.UpdateMode) : list metric.Metric :=
  let v := if decide (objectMode = mode) then Float64.of_int 1 else Float64.of_int 0 in
  ms ++ [ {| metric.LabelKeys := ["update_mode"];
             metric.LabelValues := [mode];
             metric.Value := v |} ].

Definition updateModes : list autoscaling.UpdateMode :=
  [autoscaling.UpdateModeOff; autoscaling.UpdateModeInitial;
   autoscaling.UpdateModeRecreate; autoscaling.UpdateModeAuto].

Definition updateModeFunc : TypedFunc :=
  onVPA (fun a fam =>
    match autoscaling.UpdatePolicy (autoscaling.Spec a) with
    | None => fam = {| metric.Metrics := [] |}
    | Some updatePolicy =>
        match autoscaling.UpdateMode_ updatePolicy with
        | None => fam = {| metric.Metrics := [] |}
        | Some objectMode =>
            fam = {| metric.Metrics := foldl (appendUpdateMode objectMode) [] updateModes |}
        end
    end).

(** [for _, c := range cs { ms = append(ms, vpaResourcesToMetrics(name c,
    resources c)...) }], started with [ms] and ending with [ms']. *)
Inductive appendResourceMetrics {C : Type} (name : C -> string)
    (resources : C -> v1.ResourceList)
    : list C -> list metric.Metric -> list metric.Metric -> Prop :=
| appendResourceMetrics_done ms :
    appendResourceMetrics name resources [] ms ms
| appendResourceMetrics_step c cs ms new ms' :
    vpaResourcesToMetrics (name c) (resources c) new ->
    appendResourceMetrics name resources cs (ms ++ new) ms' ->
    appendResourceMetrics name resources (c :: cs) ms ms'.

(** The two generators over [a.Spec.ResourcePolicy.ContainerPolicies]
    differ in the resource list they read ([MinAllowed], [MaxAllowed]). *)
Definition containerPoliciesFunc
    (resources : autoscaling.ContainerResourcePolicy -> v1.ResourceList) : TypedFunc :=
  onVPA (fun a fam =>
    match autoscaling.ResourcePolicy (autoscaling.Spec a) with
    | None => fam = {| metric.Metrics := [] |}
    | Some resourcePolicy =>
        match autoscaling.ContainerPolicies resourcePolicy with
        | None => fam = {| metric.Metrics := [] |}
        | Some cs =>
            exists ms,
              appendResourceMetrics autoscaling.PolicyContainerName resources cs [] ms
              /\ fam = {| metric.Metrics := ms |}
        end
    end).

(** The four generators over
    [a.Status.Recommendation.ContainerRecommendations] differ in the resource
    list they read ([LowerBound], [UpperBound], [Target], [UncappedTarget]). *)
Definition containerRecommendationsFunc
    (resources : autoscaling.RecommendedContainerResources -> v1.ResourceList)
    : TypedFunc :=
  onVPA (fun a fam =>
    match autoscaling.Recommendation (autoscaling.Status a) with
    | None => fam = {| metric.Metrics := [] |}
    | Some recommendation =>
        match autoscaling.ContainerRecommendations recommendation with
        | None => fam = {| metric.Metrics := [] |}
        | Some cs =>
            exists ms,
              appendResourceMetrics autoscaling.ContainerName resources cs [] ms
              /\ fam = {| metric.Metrics := ms |}
        end
    end).

(** *** wrapVPAFunc *)

(** The body of the wrapper's loop over the metrics of the family. *)
Definition prependDefaultLabels (vpa : autoscaling.VerticalPodAutoscaler)
    (targetRef : autoscalingv1.CrossVersionObjectReference) (m : metric.Metric)
    : metric.Metric :=
  {| metric.LabelKeys := descVerticalPodAutoscalerLabelsDefaultLabels ++ metric.LabelKeys m;
     metric.LabelValues :=
       [metav1.Namespace (autoscaling.ObjectMeta vpa);
        metav1.Name (autoscaling.ObjectMeta vpa);
        autoscalingv1.APIVersion targetRef;
        autoscalingv1.Kind targetRef;
        autoscalingv1.Name targetRef] ++ metric.LabelValues m;
     metric.Value := metric.Value m |}.

(** [targetRef := vpa.Spec.TargetRef; if targetRef == nil { targetRef =
    &autoscalingv1.CrossVersionObjectReference{} }] *)
Definition targetRefOf (vpa : autoscaling.VerticalPodAutoscaler)
    : autoscalingv1.CrossVersionObjectReference :=
  match autoscaling.TargetRef (autoscaling.Spec vpa) with
  | None => autoscalingv1.zero
  | Some targetRef => targetRef
  end.

(** [wrapVPAFunc]: the outcomes of the returned function on [obj]. The
    type assertion has the single-value form, which panics on any other
    dynamic type; then [f] runs; then [vpa.Spec] is read; then every metric of
    the family gets the default labels in front. The slice literal
    [descVerticalPodAutoscalerLabelsDefaultLabels] has no spare capacity, so
    every [append] to it that adds a key copies it. *)
Inductive wrapVPAFunc (f : TypedFunc) : object -> outcome metric.Family -> Prop :=
| wrapVPAFunc_nil_interface :
    (* the type assertion on the nil interface *)
    wrapVPAFunc f NilObject (Panics TypeAssertionFailed)
| wrapVPAFunc_other_type t :
    (* the type assertion on a value of another dynamic type *)
    wrapVPAFunc f (OtherObject t) (Panics TypeAssertionFailed)
| wrapVPAFunc_f_panics p e :
    f p (Panics e) ->
    wrapVPAFunc f (VPAObject p) (Panics e)
| wrapVPAFunc_nil_pointer metricFamily :
    (* vpa.Spec on a nil pointer *)
    f None (Returns metricFamily) ->
    wrapVPAFunc f (VPAObject None) (Panics NilPointerDereference)
| wrapVPAFunc_returns vpa metricFamily :
    f (Some vpa) (Returns metricFamily) ->
    wrapVPAFunc f (VPAObject (Some vpa))
      (Returns {| metric.Metrics :=
                    prependDefaultLabels vpa (targetRefOf vpa)
                      <$> metric.Metrics metricFamily |}).

(** *** vpaMetricFamilies *)

Definition vpaMetricFamilies (allowAnnotationsList allowLabelsList : list string)
    : list generator.FamilyGenerator :=
  [ generator.NewFamilyGenerator
      descVerticalPodAutoscalerAnnotationsName
      descVerticalPodAutoscalerAnnotationsHelp
      metric.Gauge ""
      (wrapVPAFunc (annotationsFunc allowAnnotationsList));
    generator.NewFamilyGenerator
      descVerticalPodAutoscalerLabelsName
      descVerticalPodAutoscalerLabelsHelp
      metric.Gauge ""
      (wrapVPAFunc (labelsFunc allowLabelsList));
    generator.NewFamilyGenerator
      "kube_verticalpodautoscaler_spec_updatepolicy_updatemode"
      "Update mode of the VerticalPodAutoscaler."
      metric.Gauge ""
      (wrapVPAFunc updateModeFunc);
    generator.NewFamilyGenerator
      "kube_verticalpodautoscaler_spec_resourcepolicy_container_policies_minallowed"
      "Minimum resources the VerticalPodAutoscaler can set for containers matching the name."
      metric.Gauge ""
      (wrapVPAFunc (containerPoliciesFunc autoscaling.MinAllowed));
    generator.NewFamilyGenerator
      "kube_verticalpodautoscaler_spec_resourcepolicy_container_policies_maxallowed"
      "Maximum resources the VerticalPodAutoscaler can set for containers matching the name."
      metric.Gauge ""
      (wrapVPAFunc (containerPoliciesFunc autoscaling.MaxAllowed));
    generator.NewFamilyGenerator
      "kube_verticalpodautoscaler_status_recommendation_containerrecommendations_lowerbound"
      "Minimum resources the container can use before the VerticalPodAutoscaler updater evicts it."
      metric.Gauge ""
      (wrapVPAFunc (containerRecommendationsFunc autoscaling.LowerBound));
    generator.NewFamilyGenerator
      "kube_verticalpodautoscaler_status_recommendation_containerrecommendations_upperbound"
      "Maximum resources the container can use before the VerticalPodAutoscaler updater evicts it."
      metric.Gauge ""
      (wrapVPAFunc (containerRecommendationsFunc autoscaling.UpperBound));
    generator.NewFamilyGenerator
      "kube_verticalpodautoscaler_status_recommendation_containerrecommendations_target"
      "Target resources the VerticalPodAutoscaler recommends for the container."
      metric.Gauge ""
      (wrapVPAFunc (containerRecommendationsFunc autoscaling.Target));
    generator.NewFamilyGenerator
      "kube_verticalpodautoscaler_status_recommendation_containerrecommendations_uncappedtarget"
      "Target resources the VerticalPodAutoscaler recommends for the container ignoring bounds."
      metric.Gauge ""
      (wrapVPAFunc (containerRecommendationsFunc autoscaling.UncappedTarget)) ].

(** The typed functions that [vpaMetricFamilies] wraps, in its order. *)
Definition vpaTypedFuncs (allowAnnotationsList allowLabelsList : list string)
    : list TypedFunc :=
  [ annotationsFunc allowAnnotationsList;
    labelsFunc allowLabelsList;
    updateModeFunc;
    containerPoliciesFunc autoscaling.MinAllowed;
    containerPoliciesFunc autoscaling.MaxAllowed;
    containerRecommendationsFunc autoscaling.LowerBound;
    containerRecommendationsFunc autoscaling.UpperBound;
    containerRecommendationsFunc autoscaling.Target;
    containerRecommendationsFunc autoscaling.UncappedTarget ].

(** Modelled from the spec: invoking a registry on an object, which is the
    work of the generator package: the generators are run in declaration
    order and give one family each. *)
Definition invoke (gens : list generator.FamilyGenerator) (obj : object)
    (fams : list metric.Family) : Prop :=
  Forall2 (fun g fam => generator.GenerateFunc_ g obj (Returns fam)) gens fams.

(** *** createVPAListWatchFunc *)

Module context.
Inductive Context : Type := TODO | Background.
End context.

(** The backing client. A call to it is an effect on the world outside the
    process, of some type [W]: a method takes the world before the call and
    gives its result and the world after it. The result types
    [(runtime.Object, error)] and [(watch.Interface, error)] are left
    abstract. *)
Section ListWatch.
Context {W ListResult WatchResult : Type}.

Record VerticalPodAutoscalerInterface : Type := {
  List : context.Context -> metav1.ListOptions -> W -> ListResult * W;
  Watch : context.Context -> metav1.ListOptions -> W -> WatchResult * W
}.

Record AutoscalingV1beta2Interface : Type := {
  VerticalPodAutoscalers : string -> VerticalPodAutoscalerInterface
}.

(** [vpaclientset.Interface] *)
Record vpaclientset_Interface : Type := {
  AutoscalingV1beta2 : AutoscalingV1beta2Interface
}.

(** [cache.ListWatch] *)
Record ListWatch : Type := {
  ListFunc : metav1.ListOptions -> W -> ListResult * W;
  WatchFunc : metav1.ListOptions -> W -> WatchResult * W
}.

(** [kubeClient] is not used by the function; its type stays abstract. *)
Definition createVPAListWatchFunc {clientset_Interface : Type}
    (vpaClient : vpaclientset_Interface)
    : clientset_Interface -> string -> ListWatch :=
  fun kubeClient ns =>
    {| ListFunc := fun opts =>
         List (VerticalPodAutoscalers (AutoscalingV1beta2 vpaClient) ns)
              context.TODO opts;
       WatchFunc := fun opts =>
         Watch (VerticalPodAutoscalers (AutoscalingV1beta2 vpaClient) ns)
               context.TODO opts |}.
End ListWatch.
Arguments VerticalPodAutoscalerInterface : clear implicits.
Arguments AutoscalingV1beta2Interface : clear implicits.
Arguments vpaclientset_Interface : clear implicits.
Arguments ListWatch : clear implicits.

(** A client that records every call it receives: its world is the log of
    the calls so far; what it answers to a call (a result or an error) is
    given by [answerList] and [answerWatch]. *)
Inductive clientCall : Type :=
| ListCall (ns : string) (ctx : context.Context) (opts : metav1.ListOptions)
| WatchCall (ns : string) (ctx : context.Context) (opts : metav1.ListOptions).

Definition recordingClient {ListResult WatchResult : Type}
    (answerList : clientCall -> ListResult) (answerWatch : clientCall -> WatchResult)
    : vpaclientset_Interface (list clientCall) ListResult WatchResult :=
  {| AutoscalingV1beta2 :=
       {| VerticalPodAutoscalers := fun ns =>
            {| List := fun ctx opts log =>
                 (answerList (ListCall ns ctx opts), log ++ [ListCall ns ctx opts]);
               Watch := fun ctx opts log =>
                 (answerWatch (WatchCall ns ctx opts), log ++ [WatchCall ns ctx opts]) |} |} |}.

(** * Specification-side definitions *)

(** Key and value sequences of a metric are parallel. *)
Definition labelsAligned (m : metric.Metric) : Prop :=
  length (metric.LabelKeys m) = length (metric.LabelValues m).

(** The conversion of one resource as the specification words it: a cpu
    quantity gives its milli-value divided by 1000 with unit ["core"];
    memory, storage and ephemeral-storage quantities give their integer
    value with unit ["byte"]; any other resource name gives nothing. *)
Definition specResourceMetric (containerName : string)
    (entry : string * resource.Quantity) : option metric.Metric :=
  let '(resourceName, q) := entry in
  if decide (resourceName = "cpu") then
    Some {| metric.LabelKeys := ["container"; "resource"; "unit"];
            metric.LabelValues := [containerName; sanitizeLabelName resourceName; "core"];
            metric.Value :=
              Float64.div (Float64.of_int (resource.MilliValue q)) (Float64.of_int 1000) |}
  else if decide (resourceName ∈ ["memory"; "storage"; "ephemeral-storage"]) then
    Some {| metric.LabelKeys := ["container"; "resource"; "unit"];
            metric.LabelValues := [containerName; sanitizeLabelName resourceName; "byte"];
            metric.Value := Float64.of_int (resource.Value q) |}
  else None.

(** The values of the five default identifying labels of an object. *)
Definition specDefaultLabelValues (vpa : autoscaling.VerticalPodAutoscaler)
    : list string :=
  [metav1.Namespace (autoscaling.ObjectMeta vpa);
   metav1.Name (autoscaling.ObjectMeta vpa)] ++
  match autoscaling.TargetRef (autoscaling.Spec vpa) with
  | Some ref =>
      [autoscalingv1.APIVersion ref; autoscalingv1.Kind ref; autoscalingv1.Name ref]
  | None => [""; ""; ""]
  end.

(** The optional substructures of an object that a generator reads. *)
Definition updateModeUnset (a : autoscaling.VerticalPodAutoscaler) : Prop :=
  autoscaling.UpdatePolicy (autoscaling.Spec a) = None
  \/ exists updatePolicy,
       autoscaling.UpdatePolicy (autoscaling.Spec a) = Some updatePolicy
       /\ autoscaling.UpdateMode_ updatePolicy = None.

Definition containerPoliciesUnset (a : autoscaling.VerticalPodAutoscaler) : Prop :=
  autoscaling.ResourcePolicy (autoscaling.Spec a) = None
  \/ exists resourcePolicy,
       autoscaling.ResourcePolicy (autoscaling.Spec a) = Some resourcePolicy
       /\ autoscaling.ContainerPolicies resourcePolicy = None.

Definition containerRecommendationsUnset (a : autoscaling.VerticalPodAutoscaler) : Prop :=
  autoscaling.Recommendation (autoscaling.Status a) = None
  \/ exists recommendation,
       autoscaling.Recommendation (autoscaling.Status a) = Some recommendation
       /\ autoscaling.ContainerRecommendations recommendation = None.

(** An allow-list lets no key of a map pass: it is empty, or it is not the
    wildcard and none of its keys is in the map. *)
Definition passesNoKey (allowList : list string) (m : gmap string string) : Prop :=
  allowList = []
  \/ (allowList <> [LabelWildcard] /\ forall k, k ∈ allowList -> m !! k = None).

(** The names of the generators that read an optional substructure. *)
Definition updateModeName : string :=
  "kube_verticalpodautoscaler_spec_updatepolicy_updatemode".

Definition containerPoliciesNames : list string :=
  ["kube_verticalpodautoscaler_spec_resourcepolicy_container_policies_minallowed";
   "kube_verticalpodautoscaler_spec_resourcepolicy_container_policies_maxallowed"].

Definition containerRecommendationsNames : list string :=
  ["kube_verticalpodautoscaler_status_recommendation_containerrecommendations_lowerbound";
   "kube_verticalpodautoscaler_status_recommendation_containerrecommendations_upperbound";
   "kube_verticalpodautoscaler_status_recommendation_containerrecommendations_target";
   "kube_verticalpodautoscaler_status_recommendation_containerrecommendations_uncappedtarget"].

(** The metric of one update mode as the specification words it: the key
    ["update_mode"], the mode as value, and 1 when the object's mode is this
    mode, 0 otherwise. *)
Definition specUpdateModeMetric (objectMode mode : string) : metric.Metric :=
  {| metric.LabelKeys := ["update_mode"];
     metric.LabelValues := [mode];
     metric.Value := if decide (objectMode = mode) then Float64.one else Float64.zero |}.

Definition specUpdateModeMetrics (objectMode : string) : list metric.Metric :=
  [specUpdateModeMetric objectMode "Off";
   specUpdateModeMetric objectMode "Initial";
   specUpdateModeMetric objectMode "Recreate";
   specUpdateModeMetric objectMode "Auto"].

(** A family with the five default identifying labels of [vpa] in front of
    the labels of every metric. *)
Definition withDefaultLabels (vpa : autoscaling.VerticalPodAutoscaler)
    (ms : list metric.Metric) : metric.Family :=
  {| metric.Metrics :=
       (fun m =>
          {| metric.LabelKeys :=
               ["namespace"; "verticalpodautoscaler"; "target_api_version";
                "target_kind"; "target_name"] ++ metric.LabelKeys m;
             metric.LabelValues := specDefaultLabelValues vpa ++ metric.LabelValues m;
             metric.Value := metric.Value m |}) <$> ms |}.

(** * Reference runs

    A run of the generators in which every [range] over a resource list
    visits the entries in the order that [order] makes of the list of its
    entries. *)
Definition resourceMetricsIn {C : Type}
    (order : list (string * resource.Quantity) -> list (string * resource.Quantity))
    (name : C -> string) (resources : C -> v1.ResourceList) (cs : option (list C))
    : metric.Family :=
  {| metric.Metrics :=
       match cs with
       | None => []
       | Some cs =>
           foldl (fun ms c =>
                    ms ++ resourcesToMetricsIn (name c) (order (map_to_list (resources c))))
                 [] cs
       end |}.

Definition containerPoliciesOf (a : autoscaling.VerticalPodAutoscaler)
    : option (list autoscaling.ContainerResourcePolicy) :=
  match autoscaling.ResourcePolicy (autoscaling.Spec a) with
  | None => None
  | Some resourcePolicy => autoscaling.ContainerPolicies resourcePolicy
  end.

Definition containerRecommendationsOf (a : autoscaling.VerticalPodAutoscaler)
    : option (list autoscaling.RecommendedContainerResources) :=
  match autoscaling.Recommendation (autoscaling.Status a) with
  | None => None
  | Some recommendation => autoscaling.ContainerRecommendations recommendation
  end.

Definition typedFamiliesIn
    (order : list (string * resource.Quantity) -> list (string * resource.Quantity))
    (allowAnnotationsList allowLabelsList : list string)
    (a : autoscaling.VerticalPodAutoscaler) : list metric.Family :=
  let annotations :=
    createPrometheusLabelKeysValues "annotation"
      (metav1.Annotations (autoscaling.ObjectMeta a)) allowAnnotationsList in
  let labels :=
    createPrometheusLabelKeysValues "label"
      (metav1.Labels (autoscaling.ObjectMeta a)) allowLabelsList in
  [ {| metric.Metrics :=
         [ {| metric.LabelKeys := annotations.1; metric.LabelValues := annotations.2;
              metric.Value := Float64.of_int 1 |} ] |};
    {| metric.Metrics :=
         [ {| metric.LabelKeys := labels.1; metric.LabelValues := labels.2;
              metric.Value := Float64.of_int 1 |} ] |};
    {| metric.Metrics :=
         match autoscaling.UpdatePolicy (autoscaling.Spec a) with
         | None => []
         | Some updatePolicy =>
             match autoscaling.UpdateMode_ updatePolicy with
             | None => []
             | Some objectMode => foldl (appendUpdateMode objectMode) [] updateModes
             end
         end |};
    resourceMetricsIn order autoscaling.PolicyContainerName autoscaling.MinAllowed
      (containerPoliciesOf a);
    resourceMetricsIn order autoscaling.PolicyContainerName autoscaling.MaxAllowed
      (containerPoliciesOf a);
    resourceMetricsIn order autoscaling.ContainerName autoscaling.LowerBound
      (containerRecommendationsOf a);
    resourceMetricsIn order autoscaling.ContainerName autoscaling.UpperBound
      (containerRecommendationsOf a);
    resourceMetricsIn order autoscaling.ContainerName autoscaling.Target
      (containerRecommendationsOf a);
    resourceMetricsIn order autoscaling.ContainerName autoscaling.UncappedTarget
      (containerRecommendationsOf a) ].

Definition invokeIn
    (order : list (string * resource.Quantity) -> list (string * resource.Quantity))
    (allowAnnotationsList allowLabelsList : list string)
    (vpa : autoscaling.VerticalPodAutoscaler) : list metric.Family :=
  (fun fam =>
     {| metric.Metrics :=
          prependDefaultLabels vpa (targetRefOf vpa) <$> metric.Metrics fam |})
  <$> typedFamiliesIn order allowAnnotationsList allowLabelsList vpa.

(** * Example objects *)

(** The resource list [{cpu: "500m", memory: "128Mi"}]. *)
Definition exampleResources : gmap string resource.Quantity :=
  <["cpu" := resource.ofMilli 500]>
    (<["memory" := resource.ofMilli 134217728000]> ∅).

Definition exampleMeta : metav1.ObjectMeta :=
  {| metav1.Name := "vpa1";
     metav1.Namespace := "ns1";
     metav1.Labels := <["app" := "foobar"]> ∅;
     metav1.Annotations := <["team/owner" := "sre"]> ∅ |}.

Definition exampleVPA : autoscaling.VerticalPodAutoscaler :=
  {| autoscaling.ObjectMeta := exampleMeta;
     autoscaling.Spec :=
       {| autoscaling.TargetRef :=
            Some {| autoscalingv1.Kind := "Deployment";
                    autoscalingv1.Name := "deployment1";
                    autoscalingv1.APIVersion := "extensions/v1beta1" |};
          autoscaling.UpdatePolicy :=
            Some {| autoscaling.UpdateMode_ := Some autoscaling.UpdateModeRecreate |};
          autoscaling.ResourcePolicy :=
            Some {| autoscaling.ContainerPolicies :=
                      Some [ {| autoscaling.PolicyContainerName := "*";
                                autoscaling.MinAllowed := exampleResources;
                                autoscaling.MaxAllowed := exampleResources |} ] |} |};
     autoscaling.Status :=
       {| autoscaling.Recommendation :=
            Some {| autoscaling.ContainerRecommendations :=
                      Some [ {| autoscaling.ContainerName := "container1";
                                autoscaling.Target := exampleResources;
                                autoscaling.LowerBound := exampleResources;
                                autoscaling.UpperBound := exampleResources;
                                autoscaling.UncappedTarget := exampleResources |} ] |} |} |}.

(** An object with every optional substructure unset. *)
Definition bareVPA : autoscaling.VerticalPodAutoscaler :=
  {| autoscaling.ObjectMeta :=
       {| metav1.Name := "vpa2"; metav1.Namespace := "ns2";
          metav1.Labels := ∅; metav1.Annotations := ∅ |};
     autoscaling.Spec :=
       {| autoscaling.TargetRef := None;
          autoscaling.UpdatePolicy := None;
          autoscaling.ResourcePolicy := None |};
     autoscaling.Status := {| autoscaling.Recommendation := None |} |}.

Definition exampleOptions : metav1.ListOptions :=
  {| metav1.LabelSelector := "app=foobar";
     metav1.FieldSelector := "";
     metav1.ResourceVersion := "42" |}.

(** What the min-allowed typed function returns for [exampleVPA] when the
    runtime visits [exampleResources] in the order of [map_to_list], and what
    the wrapped generator returns then. *)
Definition exampleMinAllowedTyped : metric.Family :=
  {| metric.Metrics := resourcesToMetricsIn "*" (map_to_list exampleResources) |}.

Definition exampleMinAllowedFamily : metric.Family :=
  {| metric.Metrics :=
       prependDefaultLabels exampleVPA (targetRefOf exampleVPA)
         <$> metric.Metrics exampleMinAllowedTyped |}.

(** The same when the runtime visits the map in the opposite order. *)
Definition exampleMinAllowedFamilyRev : metric.Family :=
  {| metric.Metrics :=
       prependDefaultLabels exampleVPA (targetRefOf exampleVPA)
         <$> resourcesToMetricsIn "*" (reverse (map_to_list exampleResources)) |}.

(** A typed function that returns one metric without labels. *)
Definition exampleTypedFunc : TypedFunc :=
  onVPA (fun _ fam =>
    fam = {| metric.Metrics :=
               [ {| metric.LabelKeys := []; metric.LabelValues := [];
                    metric.Value := Float64.one |} ] |}).

(** The metrics of [exampleResources] for a container: 0.5 cores and
    134217728 bytes. *)
Definition exampleCPUMetric (containerName : string) : metric.Metric :=
  {| metric.LabelKeys := ["container"; "resource"; "unit"];
     metric.LabelValues := [containerName; "cpu"; "core"];
     metric.Value := Float64.half |}.

Definition exampleMemoryMetric (containerName : string) : metric.Metric :=
  {| metric.LabelKeys := ["container"; "resource"; "unit"];
     metric.LabelValues := [containerName; "memory"; "byte"];
     metric.Value := S754_finite false 4503599627370496 (-25) |}.

(** A resource list with 2^53 + 1 bytes of memory, and its metric for the
    container ["c"], whose value is the float 2^53. *)
Definition largeMemory : gmap string resource.Quantity :=
  <["memory" := resource.ofMilli 9007199254740993000]> ∅.

Definition largeMemoryMetric : metric.Metric :=
  {| metric.LabelKeys := ["container"; "resource"; "unit"];
     metric.LabelValues := ["c"; "memory"; "byte"];
     metric.Value := S754_finite false 4503599627370496 1 |}.

(** * Definitions for the block structure and the further properties *)

(** The resource names that the [switch] of [vpaResourcesToMetrics] has a
    case for. *)
Definition recognizedResources : gset string :=
  {[ v1.ResourceCPU; v1.ResourceStorage; v1.ResourceEphemeralStorage;
     v1.ResourceMemory ]}.

(** The metric [m] is the conversion of an entry that the resource list
    has. *)
Definition fromEntry (containerName : string)
    (resources : gmap string resource.Quantity) (m : metric.Metric) : Prop :=
  exists resourceName q,
    resources !! resourceName = Some q
    /\ resourceName ∈ recognizedResources
    /\ specResourceMetric containerName (resourceName, q) = Some m.

(** The label keys of every metric of the six generators that read resource
    lists. *)
Definition resourceLabelKeys : list string :=
  ["namespace"; "verticalpodautoscaler"; "target_api_version"; "target_kind";
   "target_name"; "container"; "resource"; "unit"].

(** A caller of the list/watch factory: one invocation of the list function
    or of the watch function of the pair made for a namespace. *)
Inductive invocation : Type :=
| InvokeList (ns : string) (opts : metav1.ListOptions)
| InvokeWatch (ns : string) (opts : metav1.ListOptions).

(** The call that the backing client is to receive for an invocation. *)
Definition expectedCall (i : invocation) : clientCall :=
  match i with
  | InvokeList ns opts => ListCall ns context.TODO opts
  | InvokeWatch ns opts => WatchCall ns context.TODO opts
  end.

(** The invocations made one after the other against one client, each
    through the pair that [createVPAListWatchFunc] makes for its namespace;
    the result is the world the last one leaves. *)
Definition runInvocations {W ListResult WatchResult : Type}
    (vpaClient : vpaclientset_Interface W ListResult WatchResult)
    (invocations : list invocation) (w : W) : W :=
  foldl (fun w i =>
           match i with
           | InvokeList ns opts =>
               (ListFunc (createVPAListWatchFunc vpaClient tt ns) opts w).2
           | InvokeWatch ns opts =>
               (WatchFunc (createVPAListWatchFunc vpaClient tt ns) opts w).2
           end) w invocations.

(** Two container policies with the same container name. *)
Definition appPolicy : autoscaling.ContainerResourcePolicy :=
  {| autoscaling.PolicyContainerName := "app";
     autoscaling.MinAllowed := exampleResources;
     autoscaling.MaxAllowed := exampleResources |}.

Definition repeatedNameVPA : autoscaling.VerticalPodAutoscaler :=
  {| autoscaling.ObjectMeta := exampleMeta;
     autoscaling.Spec :=
       {| autoscaling.TargetRef := None;
          autoscaling.UpdatePolicy := None;
          autoscaling.ResourcePolicy :=
            Some {| autoscaling.ContainerPolicies := Some [appPolicy; appPolicy] |} |};
     autoscaling.Status := {| autoscaling.Recommendation := None |} |}.

(** A resource list with at most one key that the switch of
    [vpaResourcesToMetrics] has a case for. *)
Definition atMostOneRecognized (resources : gmap string resource.Quantity) : Prop :=
  size (dom resources ∩ recognizedResources) <= 1.

(** Every resource list that the generators read from the object has at
    most one such key. *)
Definition singleResourceLists (vpa : autoscaling.VerticalPodAutoscaler) : Prop :=
  Forall (fun c => atMostOneRecognized (autoscaling.MinAllowed c)
                   /\ atMostOneRecognized (autoscaling.MaxAllowed c))
         (default [] (containerPoliciesOf vpa))
  /\ Forall (fun c => atMostOneRecognized (autoscaling.LowerBound c)
                      /\ atMostOneRecognized (autoscaling.UpperBound c)
                      /\ atMostOneRecognized (autoscaling.Target c)
                      /\ atMostOneRecognized (autoscaling.UncappedTarget c))
            (default [] (containerRecommendationsOf vpa)).

(** An object whose resource lists name the cpu only, next to a resource
    that the switch has no case for. *)
Definition cpuOnlyResources : gmap string resource.Quantity :=
  <["cpu" := resource.ofMilli 250]> (<["pods" := resource.ofMilli 3000]> ∅).

Definition cpuOnlyVPA : autoscaling.VerticalPodAutoscaler :=
  {| autoscaling.ObjectMeta := exampleMeta;
     autoscaling.Spec :=
       {| autoscaling.TargetRef := None;
          autoscaling.UpdatePolicy := None;
          autoscaling.ResourcePolicy :=
            Some {| autoscaling.ContainerPolicies :=
                      Some [ {| autoscaling.PolicyContainerName := "app";
                                autoscaling.MinAllowed := cpuOnlyResources;
                                autoscaling.MaxAllowed := cpuOnlyResources |} ] |} |};
     autoscaling.Status := {| autoscaling.Recommendation := None |} |}.

(** *** Blocks of a resource family

    A family of one of the six generators that read resource lists holds
    one block of metrics per container, in the order of the container list.
    The block of a container has one metric per key of its resource list
    that the switch has a case for. *)
Definition blockSizes {C : Type} (resources : C -> v1.ResourceList)
    (cs : list C) : list nat :=
  (fun c => size (dom (resources c) ∩ recognizedResources)) <$> cs.

(** The block sizes of the six resource families of an object, in the
    declaration order of their generators. *)
Definition resourceBlockSizes (vpa : autoscaling.VerticalPodAutoscaler)
    : list (list nat) :=
  [ blockSizes autoscaling.MinAllowed (default [] (containerPoliciesOf vpa));
    blockSizes autoscaling.MaxAllowed (default [] (containerPoliciesOf vpa));
    blockSizes autoscaling.LowerBound (default [] (containerRecommendationsOf vpa));
    blockSizes autoscaling.UpperBound (default [] (containerRecommendationsOf vpa));
    blockSizes autoscaling.Target (default [] (containerRecommendationsOf vpa));
    blockSizes autoscaling.UncappedTarget
      (default [] (containerRecommendationsOf vpa)) ].

(** A list cut into consecutive blocks of the given sizes. *)
Fixpoint cutBlocks {A : Type} (sizes : list nat) (l : list A) : list (list A) :=
  match sizes with
  | [] => []
  | n :: sizes => take n l :: cutBlocks sizes (drop n l)
  end.

(** Two metric sequences that are cut by [sizes] into blocks, block for
    block the same metrics up to their order inside the block. *)
Definition blockwisePermutation (sizes : list nat)
    (ms1 ms2 : list metric.Metric) : Prop :=
  length ms1 = sum_list sizes
  /\ length ms2 = sum_list sizes
  /\ Forall2 (fun block1 block2 => block1 ≡ₚ block2)
             (cutBlocks sizes ms1) (cutBlocks sizes ms2).

(** An object with two container policies of different names. *)
Definition sidecarPolicy : autoscaling.ContainerResourcePolicy :=
  {| autoscaling.PolicyContainerName := "sidecar";
     autoscaling.MinAllowed := cpuOnlyResources;
     autoscaling.MaxAllowed := cpuOnlyResources |}.

Definition twoContainerVPA : autoscaling.VerticalPodAutoscaler :=
  {| autoscaling.ObjectMeta := exampleMeta;
     autoscaling.Spec :=
       {| autoscaling.TargetRef := None;
          autoscaling.UpdatePolicy := None;
          autoscaling.ResourcePolicy :=
            Some {| autoscaling.ContainerPolicies :=
                      Some [appPolicy; sidecarPolicy] |} |};
     autoscaling.Status := {| autoscaling.Recommendation := None |} |}.

(** Its min-allowed family when every resource list is visited in the
    order of [map_to_list]. *)
Definition twoContainerMinAllowedFamily : metric.Family :=
  withDefaultLabels twoContainerVPA
    (concat [resourcesToMetricsIn "app" (map_to_list exampleResources);
             resourcesToMetricsIn "sidecar" (map_to_list cpuOnlyResources)]).

(** Two containers at different positions of the list have the same name,
    and their resource lists share a key that the switch has a case for. *)
Definition repeatedEntry {C : Type} (name : C -> string)
    (resources : C -> v1.ResourceList) (cs : list C) : Prop :=
  exists i j ci cj resourceName,
    i <> j
    /\ cs !! i = Some ci
    /\ cs !! j = Some cj
    /\ name ci = name cj
    /\ resourceName ∈ recognizedResources
    /\ is_Some (resources ci !! resourceName)
    /\ is_Some (resources cj !! resourceName).

(** * Tactics *)

(** The nine cases of a hypothesis [H : f ∈ vpaTypedFuncs _ _], in the
    order of the declaration. *)
Ltac vpaTypedFuncs_cases H :=
  unfold vpaTypedFuncs in H;
  rewrite !elem_of_cons, elem_of_nil in H;
  destruct H as [->|[->|[->|[->|[->|[->|[->|[->|[->|[]]]]]]]]]].

(** * Properties *)

(** ** The definitions on small inputs *)

Example sanitizeLabelName_examples :
  sanitizeLabelName "ephemeral-storage" = "ephemeral_storage"
  /\ sanitizeLabelName "cpu" = "cpu"
  /\ sanitizeLabelName "1a" = "_1a".
Proof. repeat split. Qed.

(** Under the wildcard the entries come sorted by sanitized key, and of two
    source keys with the same label key one is kept. *)
Example createPrometheusLabelKeysValues_wildcard :
  createPrometheusLabelKeysValues "label"
    (<["b/x" := "1"]> (<["a" := "2"]> (<["b.x" := "3"]> ∅))) ["*"]
  = (["label_a"; "label_b_x"], ["2"; "3"]).
Proof. vm_compute. reflexivity. Qed.

(** An explicit allow-list gives its keys that the map has, in its order. *)
Example createPrometheusLabelKeysValues_explicit :
  createPrometheusLabelKeysValues "label"
    (<["b/x" := "1"]> (<["a" := "2"]> (<["b.x" := "3"]> ∅))) ["b.x"; "zz"; "a"]
  = (["label_b_x"; "label_a"], ["3"; "2"]).
Proof. vm_compute. reflexivity. Qed.

(** The two loops of [vpaResourcesToMetrics] on four entries, one of them
    with a resource name that is not recognized. *)
Example resourcesToMetricsIn_example :
  resourcesToMetricsIn "c"
    [("memory", resource.ofMilli 134217728000); ("pods", resource.ofMilli 3000);
     ("cpu", resource.ofMilli 500); ("ephemeral-storage", resource.ofMilli 1500)]
  = [ {| metric.LabelKeys := ["container"; "resource"; "unit"];
         metric.LabelValues := ["c"; "memory"; "byte"];
         metric.Value := Float64.of_int 134217728 |};
      {| metric.LabelKeys := ["container"; "resource"; "unit"];
         metric.LabelValues := ["c"; "cpu"; "core"];
         metric.Value := Float64.half |};
      {| metric.LabelKeys := ["container"; "resource"; "unit"];
         metric.LabelValues := ["c"; "ephemeral_storage"; "byte"];
         metric.Value := Float64.of_int 2 |} ].
Proof. vm_compute. reflexivity. Qed.

(** The nine families of a reference run for [exampleVPA] hold 1, 1, 4, 2,
    2, 2, 2, 2 and 2 metrics. *)
Example invokeIn_example :
  (fun fam => length (metric.Metrics fam)) <$> invokeIn id ["*"] ["*"] exampleVPA
  = [1; 1; 4; 2; 2; 2; 2; 2; 2].
Proof. vm_compute. reflexivity. Qed.

(** ** float64 conversions *)

Section Float64Facts.
Local Open Scope Z_scope.

Lemma digits2_pos_iter_xO p k :
  digits2_pos (Pos.iter xO p k) = (digits2_pos p + k)%positive.
Proof.
  apply (Pos.iter_ind _ xO p
           (fun k r => digits2_pos r = (digits2_pos p + k)%positive)).
  - simpl. lia.
  - intros q a IH. simpl. rewrite IH. lia.
Qed.

Lemma Zpos_iter_xO p k : Z.pos (Pos.iter xO p k) = Z.pos p * 2 ^ Z.pos k.
Proof.
  apply (Pos.iter_ind _ xO p (fun k r => Z.pos r = Z.pos p * 2 ^ Z.pos k)).
  - lia.
  - intros q a IH. rewrite Pos2Z.inj_succ, Z.pow_succ_r by lia.
    rewrite Pos2Z.inj_xO, IH. ring.
Qed.

Lemma digits2_pos_lower p : 2 ^ (Z.pos (digits2_pos p) - 1) <= Z.pos p.
Proof.
  induction p as [p IH | p IH |]; simpl digits2_pos;
    rewrite ?Pos2Z.inj_succ;
    try replace (Z.succ (Z.pos (digits2_pos p)) - 1)
      with (Z.succ (Z.pos (digits2_pos p) - 1)) by lia;
    rewrite ?Z.pow_succ_r by lia; lia.
Qed.

Lemma digits2_pos_le_prec p : Z.pos p < 2 ^ 53 -> Z.pos (digits2_pos p) <= 53.
Proof.
  intros H. pose proof (digits2_pos_lower p) as L.
  destruct (Z_le_gt_dec (Z.pos (digits2_pos p)) 53) as [|G]; [assumption|].
  exfalso.
  assert (2 ^ 53 <= 2 ^ (Z.pos (digits2_pos p) - 1))
    by (apply Z.pow_le_mono_r; lia).
  lia.
Qed.

(** A mantissa of full width is neither shifted nor rounded. *)
Lemma shr_fexp_full m e :
  Z.pos (digits2_pos m) = 53 -> -1074 <= e ->
  shr_fexp Float64.prec Float64.emax (Z.pos m) e loc_Exact =
  ({| shr_m := Z.pos m; shr_r := false; shr_s := false |}, e).
Proof.
  intros Hd He. unfold shr_fexp, Zdigits2. rewrite Hd.
  assert (fexp Float64.prec Float64.emax (53 + e) - e = 0) as ->
    by (unfold fexp, emin, Float64.prec, Float64.emax; lia).
  reflexivity.
Qed.

Lemma binary_round_aux_full s m e :
  Z.pos (digits2_pos m) = 53 -> -1074 <= e <= 971 ->
  binary_round_aux Float64.prec Float64.emax s (Z.pos m) e loc_Exact
  = S754_finite s m e.
Proof.
  intros Hd He. unfold binary_round_aux.
  rewrite shr_fexp_full by lia. cbn [shr_m loc_of_shr_record round_nearest_even].
  rewrite shr_fexp_full by lia. cbn [shr_m].
  assert ((e <=? Float64.emax - Float64.prec) = true) as ->
    by (unfold Float64.emax, Float64.prec; lia).
  reflexivity.
Qed.

Lemma binary_round_small s p :
  Z.pos p < 2 ^ 53 ->
  Float64.is_integer (binary_round Float64.prec Float64.emax s p 0)
                     (cond_Zopp s (Z.pos p)).
Proof.
  intros Hp. pose proof (digits2_pos_le_prec p Hp) as Hd.
  unfold binary_round, shl_align.
  assert (fexp Float64.prec Float64.emax (Z.pos (digits2_pos p) + 0) - 0
          = Z.pos (digits2_pos p) - 53) as ->
    by (unfold fexp, emin, Float64.prec, Float64.emax; lia).
  destruct (Z.pos (digits2_pos p) - 53) as [|k|k] eqn:E; try lia.
  - rewrite binary_round_aux_full by lia.
    split; [lia|]. left. split; [lia|]. ring.
  - assert (fexp Float64.prec Float64.emax (Z.pos (digits2_pos p) + 0) = Z.neg k)
      as -> by (unfold fexp, emin, Float64.prec, Float64.emax; lia).
    rewrite binary_round_aux_full by (rewrite ?digits2_pos_iter_xO; lia).
    split; [lia|]. right. split; [lia|]. change (- Z.neg k) with (Z.pos k).
    rewrite Zpos_iter_xO. destruct s; unfold cond_Zopp; ring.
Qed.

(** Up to [2^53] the conversion of an integer to float64 is exact. *)
Lemma of_int_exact z : Z.abs z <= 2 ^ 53 -> Float64.is_integer (Float64.of_int z) z.
Proof.
  intros Hz.
  destruct (Z.eq_dec z (2 ^ 53)) as [-> | Hp].
  { change (Float64.of_int (2 ^ 53)) with (S754_finite false 4503599627370496 1).
    split; [lia|]. left. split; [lia | reflexivity]. }
  destruct (Z.eq_dec z (- 2 ^ 53)) as [-> | Hn].
  { change (Float64.of_int (- 2 ^ 53)) with (S754_finite true 4503599627370496 1).
    split; [lia|]. left. split; [lia | reflexivity]. }
  destruct z as [|p|p].
  - split; [reflexivity | lia].
  - apply (binary_round_small false p). lia.
  - apply (binary_round_small true p). lia.
Qed.

Lemma of_int_1 : Float64.of_int 1 = Float64.one.
Proof. reflexivity. Qed.

Lemma one_is_1 : Float64.is_integer Float64.one 1.
Proof. rewrite <- of_int_1. apply of_int_exact. vm_compute. discriminate. Qed.

Lemma half_is_half : Float64.represents Float64.half 1 2.
Proof. split; [lia|]. right. split; [lia|]. reflexivity. Qed.

End Float64Facts.

(** ** The label composer *)

Lemma composeStep_aligned prefix acc e :
  length acc.1 = length acc.2 ->
  length (composeStep prefix acc e).1 = length (composeStep prefix acc e).2.
Proof.
  intros H. unfold composeStep. case_decide; simpl; [done|].
  rewrite !length_app, H. done.
Qed.

Lemma foldl_composeStep_aligned prefix entries acc :
  length acc.1 = length acc.2 ->
  length (foldl (composeStep prefix) acc entries).1
  = length (foldl (composeStep prefix) acc entries).2.
Proof.
  revert acc. induction entries as [|e entries IH]; intros acc H; simpl; [done|].
  apply IH, composeStep_aligned, H.
Qed.

Lemma createPrometheusLabelKeysValues_aligned prefix m allowList :
  length (createPrometheusLabelKeysValues prefix m allowList).1
  = length (createPrometheusLabelKeysValues prefix m allowList).2.
Proof. apply foldl_composeStep_aligned. done. Qed.

Lemma omap_lookup_none (m : gmap string string) (allowList : list string) :
  (forall k, k ∈ allowList -> m !! k = None) ->
  omap (fun k => (fun v => (k, v)) <$> m !! k) allowList = [].
Proof.
  induction allowList as [|k ks IH]; intros H; simpl; [done|].
  rewrite (H k) by left. simpl. apply IH. intros k' Hk'. apply H. by right.
Qed.

Lemma allowedEntries_empty_map allowList : allowedEntries ∅ allowList = [].
Proof.
  unfold allowedEntries. case_decide.
  - rewrite map_to_list_empty. reflexivity.
  - apply omap_lookup_none. intros k _. apply lookup_empty.
Qed.

Lemma allowedEntries_passesNoKey m allowList :
  passesNoKey allowList m -> allowedEntries m allowList = [].
Proof.
  intros [-> | [Hne Hk]]; unfold allowedEntries.
  - rewrite decide_False by discriminate. reflexivity.
  - rewrite decide_False by done. by apply omap_lookup_none.
Qed.

Lemma createPrometheusLabelKeysValues_nothing prefix m allowList :
  m = ∅ \/ passesNoKey allowList m ->
  createPrometheusLabelKeysValues prefix m allowList = ([], []).
Proof.
  intros H. unfold createPrometheusLabelKeysValues.
  replace (allowedEntries m allowList) with (@nil (string * string)); [done|].
  destruct H as [-> | H];
    [by rewrite allowedEntries_empty_map | by rewrite allowedEntries_passesNoKey].
Qed.

(** ** vpaResourcesToMetrics *)

Lemma switchResourceName_spec containerName ms entry :
  setLabelKeys <$> switchResourceName containerName ms entry
  = (setLabelKeys <$> ms) ++ option_list (specResourceMetric containerName entry).
Proof.
  destruct entry as [resourceName q].
  unfold switchResourceName, specResourceMetric.
  unfold v1.ResourceCPU, v1.ResourceStorage, v1.ResourceEphemeralStorage,
    v1.ResourceMemory, constant.UnitCore, constant.UnitByte.
  destruct (decide (resourceName = "cpu")) as [->|Hcpu].
  - rewrite fmap_app. reflexivity.
  - destruct (decide (resourceName = "storage" ∨ resourceName = "ephemeral-storage"
                      ∨ resourceName = "memory")) as [Hb|Hb].
    + rewrite decide_True by (rewrite !elem_of_cons; tauto).
      rewrite fmap_app. reflexivity.
    + rewrite decide_False
        by (rewrite !elem_of_cons, elem_of_nil; tauto).
      simpl. by rewrite app_nil_r.
Qed.

Lemma foldl_switchResourceName_spec containerName entries ms :
  setLabelKeys <$> foldl (switchResourceName containerName) ms entries
  = (setLabelKeys <$> ms) ++ omap (specResourceMetric containerName) entries.
Proof.
  revert ms. induction entries as [|e entries IH]; intros ms; simpl.
  - by rewrite app_nil_r.
  - rewrite IH, switchResourceName_spec, <- app_assoc.
    by destruct (specResourceMetric containerName e).
Qed.

(** The two loops compute the specified conversion of the entries, in the
    order in which the map was visited. *)
Lemma resourcesToMetricsIn_spec containerName entries :
  resourcesToMetricsIn containerName entries
  = omap (specResourceMetric containerName) entries.
Proof. apply (foldl_switchResourceName_spec containerName entries []). Qed.

Lemma vpaResourcesToMetrics_inv containerName resources ms :
  vpaResourcesToMetrics containerName resources ms ->
  exists entries,
    entries ≡ₚ map_to_list resources
    /\ ms = omap (specResourceMetric containerName) entries.
Proof.
  intros [entries H]. exists entries. split; [exact H|].
  apply resourcesToMetricsIn_spec.
Qed.

(** The function always has a result: the runtime visits the map in some
    order. *)
Lemma vpaResourcesToMetrics_total containerName resources :
  vpaResourcesToMetrics containerName resources
    (resourcesToMetricsIn containerName (map_to_list resources)).
Proof. constructor. unfold mapRange. reflexivity. Qed.

Lemma vpaResourcesToMetrics_Permutation containerName resources ms1 ms2 :
  vpaResourcesToMetrics containerName resources ms1 ->
  vpaResourcesToMetrics containerName resources ms2 ->
  ms1 ≡ₚ ms2.
Proof.
  intros (e1 & P1 & ->)%vpaResourcesToMetrics_inv
         (e2 & P2 & ->)%vpaResourcesToMetrics_inv.
  apply omap_Permutation. by rewrite P1, P2.
Qed.

Lemma specResourceMetric_aligned containerName entry m :
  specResourceMetric containerName entry = Some m -> labelsAligned m.
Proof.
  destruct entry as [resourceName q]. unfold specResourceMetric.
  repeat case_decide; intros [= <-]; reflexivity.
Qed.

Lemma vpaResourcesToMetrics_aligned containerName resources ms :
  vpaResourcesToMetrics containerName resources ms -> Forall labelsAligned ms.
Proof.
  intros (entries & _ & ->)%vpaResourcesToMetrics_inv.
  apply Forall_forall. intros m (e & _ & He)%list_elem_of_omap.
  by eapply specResourceMetric_aligned.
Qed.

(** ** The number of metrics of one resource list *)

Lemma specResourceMetric_is_Some containerName resourceName q :
  is_Some (specResourceMetric containerName (resourceName, q))
  <-> resourceName ∈ recognizedResources.
Proof.
  unfold specResourceMetric, recognizedResources, v1.ResourceCPU,
    v1.ResourceStorage, v1.ResourceEphemeralStorage, v1.ResourceMemory.
  rewrite !elem_of_union, !elem_of_singleton.
  destruct (decide (resourceName = "cpu")) as [->|Hcpu].
  - split; [tauto | eauto].
  - destruct (decide (resourceName ∈ ["memory"; "storage"; "ephemeral-storage"]))
      as [Hb|Hb]; rewrite !elem_of_cons, elem_of_nil in Hb.
    + split; [tauto | eauto].
    + split; [by intros [? [=]] | tauto].
Qed.

Lemma length_omap_specResourceMetric containerName
    (entries : list (string * resource.Quantity)) :
  length (omap (specResourceMetric containerName) entries)
  = length (filter (fun kv => kv.1 ∈ recognizedResources) entries).
Proof.
  induction entries as [|[k q] entries IH]; [done|].
  rewrite filter_cons.
  change (omap (specResourceMetric containerName) ((k, q) :: entries))
    with (from_option
            (fun m => m :: omap (specResourceMetric containerName) entries)
            (omap (specResourceMetric containerName) entries)
            (specResourceMetric containerName (k, q))).
  pose proof (specResourceMetric_is_Some containerName k q) as S.
  destruct (specResourceMetric containerName (k, q)) as [m|] eqn:E.
  - rewrite decide_True by (apply S; eauto). cbn [from_option length].
    by rewrite IH.
  - rewrite decide_False by (intros H%S; by destruct H). done.
Qed.

Lemma recognized_keys (resources : gmap string resource.Quantity) :
  length (filter (fun kv => kv.1 ∈ recognizedResources) (map_to_list resources))
  = size (dom resources ∩ recognizedResources).
Proof.
  set (l := filter (fun kv : string * resource.Quantity => kv.1 ∈ recognizedResources)
              (map_to_list resources)).
  assert (NoDup l.*1) as Hnd.
  { apply (NoDup_fmap_fst l).
    - intros k q1 q2 [_ H1]%list_elem_of_filter [_ H2]%list_elem_of_filter.
      apply elem_of_map_to_list in H1, H2. congruence.
    - apply NoDup_filter, NoDup_map_to_list. }
  rewrite <- (length_fmap fst l), <- (size_list_to_set (C := gset string)) by done.
  f_equal. apply set_eq. intros k.
  rewrite elem_of_list_to_set, elem_of_intersection, elem_of_dom, list_elem_of_fmap.
  split.
  - intros ([k' q] & -> & [Hr Hin%elem_of_map_to_list]%list_elem_of_filter).
    simpl in *. eauto.
  - intros [[q Hq] Hr]. exists (k, q). split; [done|].
    apply list_elem_of_filter. split; [done|]. by apply elem_of_map_to_list.
Qed.

Lemma size_recognizedResources : size recognizedResources = 4.
Proof. reflexivity. Qed.

Lemma vpaResourcesToMetrics_length containerName
    (resources : gmap string resource.Quantity) ms :
  vpaResourcesToMetrics containerName resources ms ->
  length ms = size (dom resources ∩ recognizedResources).
Proof.
  intros (entries & P & ->)%vpaResourcesToMetrics_inv.
  rewrite length_omap_specResourceMetric, <- recognized_keys. by rewrite P.
Qed.

Lemma vpaResourcesToMetrics_length_le_4 containerName
    (resources : gmap string resource.Quantity) ms :
  vpaResourcesToMetrics containerName resources ms -> length ms <= 4.
Proof.
  intros ->%vpaResourcesToMetrics_length.
  rewrite <- size_recognizedResources. apply subseteq_size.
  apply intersection_subseteq_r.
Qed.

(** ** The loop over containers *)

Section AppendResourceMetrics.
Context {C : Type} (name : C -> string) (resources : C -> v1.ResourceList).

Lemma appendResourceMetrics_total cs ms :
  exists ms', appendResourceMetrics name resources cs ms ms'.
Proof.
  revert ms. induction cs as [|c cs IH]; intros ms.
  - exists ms. constructor.
  - destruct (IH (ms ++ resourcesToMetricsIn (name c) (map_to_list (resources c))))
      as [ms' H].
    exists ms'. econstructor; [apply vpaResourcesToMetrics_total | exact H].
Qed.

Lemma appendResourceMetrics_Forall (P : metric.Metric -> Prop) cs ms ms' :
  (forall c new, vpaResourcesToMetrics (name c) (resources c) new -> Forall P new) ->
  appendResourceMetrics name resources cs ms ms' ->
  Forall P ms -> Forall P ms'.
Proof.
  intros HP H. induction H as [|c cs ms new ms' Hnew _ IH]; intros Hms; [done|].
  apply IH, Forall_app. split; [done|]. by eapply HP.
Qed.

Lemma appendResourceMetrics_Permutation cs ms1 ms2 ms1' ms2' :
  appendResourceMetrics name resources cs ms1 ms1' ->
  appendResourceMetrics name resources cs ms2 ms2' ->
  ms1 ≡ₚ ms2 -> ms1' ≡ₚ ms2'.
Proof.
  intros H1. revert ms2 ms2'.
  induction H1 as [|c cs ms1 new1 ms1' Hnew1 _ IH]; intros ms2 ms2' H2 Hms;
    inversion H2 as [|? ? ? new2 ? Hnew2 H2']; subst; [done|].
  eapply IH; [exact H2'|].
  by rewrite Hms, (vpaResourcesToMetrics_Permutation _ _ _ _ Hnew1 Hnew2).
Qed.

End AppendResourceMetrics.

(** ** In-place updates through distinct pointers *)

Lemma updateEach_lookup_notin g ptrs (h : store) p :
  p ∉ ptrs -> updateEach g ptrs h !! p = h !! p.
Proof.
  revert h. induction ptrs as [|q ptrs IH]; intros h Hp; [done|].
  apply not_elem_of_cons in Hp as [Hpq Hp].
  change (updateEach g (q :: ptrs) h) with (updateEach g ptrs (alter g q h)).
  rewrite IH by done. by rewrite lookup_alter_ne.
Qed.

Lemma contents_alter_notin g p ptrs (h : store) :
  p ∉ ptrs -> contents (alter g p h) ptrs = contents h ptrs.
Proof.
  induction ptrs as [|q ptrs IH]; intros Hp; [done|].
  apply not_elem_of_cons in Hp as [Hpq Hp].
  change (contents ?h' (q :: ptrs))
    with (from_option (fun m => m :: contents h' ptrs) (contents h' ptrs) (h' !! q)).
  rewrite lookup_alter_ne by done. by rewrite IH.
Qed.

(** Assigning through pairwise distinct pointers is a map over the
    contents. *)
Lemma updateEach_distinct g ptrs (h : store) :
  NoDup ptrs -> contents (updateEach g ptrs h) ptrs = g <$> contents h ptrs.
Proof.
  intros Hnd. revert h.
  induction Hnd as [|p ptrs Hp Hnd IH]; intros h; [done|].
  change (updateEach g (p :: ptrs) h) with (updateEach g ptrs (alter g p h)).
  change (contents ?h' (p :: ptrs))
    with (from_option (fun m => m :: contents h' ptrs) (contents h' ptrs) (h' !! p)).
  rewrite updateEach_lookup_notin by done.
  rewrite lookup_alter_eq, IH, contents_alter_notin by done.
  by destruct (h !! p).
Qed.

(** Through a pointer that occurs twice the assignment is made twice. *)
Example updateEach_aliased :
  contents (updateEach setLabelKeys [0; 0] {[ 0 := exampleCPUMetric "c" ]}) [0]
  = [setLabelKeys (setLabelKeys (exampleCPUMetric "c"))].
Proof. reflexivity. Qed.

(** ** The typed functions and the wrapper *)

Lemma onVPA_returns body a fam :
  onVPA body (Some a) (Returns fam) <-> body a fam.
Proof.
  split.
  - intros (fam' & H & [= ->]). exact H.
  - intros H. exists fam. done.
Qed.

Lemma onVPA_no_panic body a e : ~ onVPA body (Some a) (Panics e).
Proof. intros (fam & _ & [=]). Qed.

Lemma wrapVPAFunc_returns_inv f vpa fam' :
  wrapVPAFunc f (VPAObject (Some vpa)) (Returns fam') ->
  exists fam,
    f (Some vpa) (Returns fam)
    /\ fam' = {| metric.Metrics :=
                   prependDefaultLabels vpa (targetRefOf vpa) <$> metric.Metrics fam |}.
Proof. inversion 1; subst. eauto. Qed.

Lemma wrapVPAFunc_panics_inv f vpa e :
  wrapVPAFunc f (VPAObject (Some vpa)) (Panics e) -> f (Some vpa) (Panics e).
Proof. by inversion 1. Qed.

Lemma targetRefOf_values vpa :
  [metav1.Namespace (autoscaling.ObjectMeta vpa);
   metav1.Name (autoscaling.ObjectMeta vpa);
   autoscalingv1.APIVersion (targetRefOf vpa);
   autoscalingv1.Kind (targetRefOf vpa);
   autoscalingv1.Name (targetRefOf vpa)] = specDefaultLabelValues vpa.
Proof.
  unfold targetRefOf, specDefaultLabelValues.
  by destruct (autoscaling.TargetRef (autoscaling.Spec vpa)).
Qed.

Lemma prependDefaultLabels_aligned vpa ref m :
  labelsAligned m -> labelsAligned (prependDefaultLabels vpa ref m).
Proof.
  unfold labelsAligned, prependDefaultLabels. simpl. intros ->. reflexivity.
Qed.

Lemma prependDefaultLabels_withDefaultLabels vpa (ms : list metric.Metric) :
  {| metric.Metrics := prependDefaultLabels vpa (targetRefOf vpa) <$> ms |}
  = withDefaultLabels vpa ms.
Proof.
  unfold withDefaultLabels. f_equal. apply list_fmap_ext. intros _ m _.
  unfold prependDefaultLabels. by rewrite targetRefOf_values.
Qed.

Lemma vpaMetricFamilies_wraps allowAnnotationsList allowLabelsList :
  generator.GenerateFunc_ <$> vpaMetricFamilies allowAnnotationsList allowLabelsList
  = wrapVPAFunc <$> vpaTypedFuncs allowAnnotationsList allowLabelsList.
Proof. reflexivity. Qed.

Lemma vpaMetricFamilies_elem g allowAnnotationsList allowLabelsList :
  g ∈ vpaMetricFamilies allowAnnotationsList allowLabelsList ->
  exists f,
    f ∈ vpaTypedFuncs allowAnnotationsList allowLabelsList
    /\ generator.GenerateFunc_ g = wrapVPAFunc f.
Proof.
  intros H.
  assert (generator.GenerateFunc_ g
          ∈ generator.GenerateFunc_ <$> vpaMetricFamilies allowAnnotationsList allowLabelsList)
    as H' by (apply list_elem_of_fmap; eauto).
  rewrite vpaMetricFamilies_wraps in H'.
  apply list_elem_of_fmap in H' as (f & -> & Hf). eauto.
Qed.

Lemma containerPoliciesFunc_inv resources a fam :
  containerPoliciesFunc resources (Some a) (Returns fam) ->
  exists cs,
    appendResourceMetrics autoscaling.PolicyContainerName resources cs []
      (metric.Metrics fam).
Proof.
  intros H%onVPA_returns.
  destruct (autoscaling.ResourcePolicy (autoscaling.Spec a)) as [rp|];
    [destruct (autoscaling.ContainerPolicies rp) as [cs|]|].
  - destruct H as (ms & H & ->). by exists cs.
  - subst. exists []. constructor.
  - subst. exists []. constructor.
Qed.

Lemma containerRecommendationsFunc_inv resources a fam :
  containerRecommendationsFunc resources (Some a) (Returns fam) ->
  exists cs,
    appendResourceMetrics autoscaling.ContainerName resources cs []
      (metric.Metrics fam).
Proof.
  intros H%onVPA_returns.
  destruct (autoscaling.Recommendation (autoscaling.Status a)) as [r|];
    [destruct (autoscaling.ContainerRecommendations r) as [cs|]|].
  - destruct H as (ms & H & ->). by exists cs.
  - subst. exists []. constructor.
  - subst. exists []. constructor.
Qed.

Lemma updateModeFunc_inv a fam :
  updateModeFunc (Some a) (Returns fam) ->
  fam = {| metric.Metrics := [] |}
  \/ exists objectMode,
       fam = {| metric.Metrics := foldl (appendUpdateMode objectMode) [] updateModes |}.
Proof.
  intros H%onVPA_returns.
  destruct (autoscaling.UpdatePolicy (autoscaling.Spec a)) as [up|];
    [destruct (autoscaling.UpdateMode_ up) as [mode|]|]; eauto.
Qed.

(** Every typed function returns a family for every object; none panics
    on a non-nil object. *)
Lemma vpaTypedFuncs_total f allowAnnotationsList allowLabelsList a :
  f ∈ vpaTypedFuncs allowAnnotationsList allowLabelsList ->
  exists fam, f (Some a) (Returns fam).
Proof.
  assert (forall {C} (name : C -> string) res (o : option (list C)),
            exists fam : metric.Family,
              match o with
              | None => fam = {| metric.Metrics := [] |}
              | Some cs => exists ms, appendResourceMetrics name res cs [] ms
                                      /\ fam = {| metric.Metrics := ms |}
              end) as Hloop.
  { intros C name res [cs|]; [|eauto].
    destruct (appendResourceMetrics_total name res cs []) as [ms H]. eauto. }
  intros Hf. vpaTypedFuncs_cases Hf; setoid_rewrite onVPA_returns.
  - destruct (createPrometheusLabelKeysValues _ _ _); eauto.
  - destruct (createPrometheusLabelKeysValues _ _ _); eauto.
  - destruct (autoscaling.UpdatePolicy _) as [up|];
      [destruct (autoscaling.UpdateMode_ up)|]; eauto.
  - destruct (autoscaling.ResourcePolicy _) as [rp|]; [apply Hloop | eauto].
  - destruct (autoscaling.ResourcePolicy _) as [rp|]; [apply Hloop | eauto].
  - destruct (autoscaling.Recommendation _) as [rp|]; [apply Hloop | eauto].
  - destruct (autoscaling.Recommendation _) as [rp|]; [apply Hloop | eauto].
  - destruct (autoscaling.Recommendation _) as [rp|]; [apply Hloop | eauto].
  - destruct (autoscaling.Recommendation _) as [rp|]; [apply Hloop | eauto].
Qed.

Lemma vpaTypedFuncs_no_panic f allowAnnotationsList allowLabelsList a e :
  f ∈ vpaTypedFuncs allowAnnotationsList allowLabelsList ->
  ~ f (Some a) (Panics e).
Proof.
  intros Hf. vpaTypedFuncs_cases Hf; apply onVPA_no_panic.
Qed.

Lemma vpaTypedFuncs_aligned f allowAnnotationsList allowLabelsList a fam :
  f ∈ vpaTypedFuncs allowAnnotationsList allowLabelsList ->
  f (Some a) (Returns fam) ->
  Forall labelsAligned (metric.Metrics fam).
Proof.
  assert (forall {C} (name : C -> string) res cs ms,
            appendResourceMetrics name res cs [] ms -> Forall labelsAligned ms)
    as Hloop.
  { intros C name res cs ms H.
    eapply appendResourceMetrics_Forall; [|exact H|constructor].
    intros c new. apply vpaResourcesToMetrics_aligned. }
  intros Hf H. vpaTypedFuncs_cases Hf.
  - apply onVPA_returns in H.
    pose proof (createPrometheusLabelKeysValues_aligned "annotation"
      (metav1.Annotations (autoscaling.ObjectMeta a)) allowAnnotationsList) as L.
    destruct (createPrometheusLabelKeysValues _ _ _) as [ks vs]. subst fam.
    repeat constructor. exact L.
  - apply onVPA_returns in H.
    pose proof (createPrometheusLabelKeysValues_aligned "label"
      (metav1.Labels (autoscaling.ObjectMeta a)) allowLabelsList) as L.
    destruct (createPrometheusLabelKeysValues _ _ _) as [ks vs]. subst fam.
    repeat constructor. exact L.
  - apply updateModeFunc_inv in H as [-> | [mode ->]]; simpl;
      repeat constructor.
  - apply containerPoliciesFunc_inv in H as [cs H]. by eapply Hloop.
  - apply containerPoliciesFunc_inv in H as [cs H]. by eapply Hloop.
  - apply containerRecommendationsFunc_inv in H as [cs H]. by eapply Hloop.
  - apply containerRecommendationsFunc_inv in H as [cs H]. by eapply Hloop.
  - apply containerRecommendationsFunc_inv in H as [cs H]. by eapply Hloop.
  - apply containerRecommendationsFunc_inv in H as [cs H]. by eapply Hloop.
Qed.

(** ** Example runs *)

Lemma exampleMinAllowedTyped_run :
  containerPoliciesFunc autoscaling.MinAllowed (Some exampleVPA)
    (Returns exampleMinAllowedTyped).
Proof.
  apply onVPA_returns. simpl. eexists. split; [|reflexivity].
  eapply appendResourceMetrics_step;
    [apply vpaResourcesToMetrics_total | apply appendResourceMetrics_done].
Defined.

Lemma exampleMinAllowedFamily_run :
  wrapVPAFunc (containerPoliciesFunc autoscaling.MinAllowed)
    (VPAObject (Some exampleVPA)) (Returns exampleMinAllowedFamily).
Proof.
  exact (wrapVPAFunc_returns _ exampleVPA _ exampleMinAllowedTyped_run).
Defined.

Lemma exampleTypedFunc_run vpa :
  exampleTypedFunc (Some vpa)
    (Returns {| metric.Metrics :=
                  [ {| metric.LabelKeys := []; metric.LabelValues := [];
                       metric.Value := Float64.one |} ] |}).
Proof. apply onVPA_returns. reflexivity. Defined.

(** ** The outcomes of a wrapped closure *)

Lemma wrapVPAFunc_onVPA body vpa o :
  wrapVPAFunc (onVPA body) (VPAObject (Some vpa)) o <->
  exists fam, body vpa fam /\ o = Returns (withDefaultLabels vpa (metric.Metrics fam)).
Proof.
  split.
  - destruct o as [fam'|e].
    + intros (fam & H%onVPA_returns & ->)%wrapVPAFunc_returns_inv.
      exists fam. by rewrite prependDefaultLabels_withDefaultLabels.
    + intros H%wrapVPAFunc_panics_inv. by apply onVPA_no_panic in H.
  - intros (fam & H & ->). rewrite <- prependDefaultLabels_withDefaultLabels.
    constructor. by apply onVPA_returns.
Qed.

(** A generator of [vpaMetricFamilies], by its name. *)
Lemma vpaMetricFamilies_by_name g allowAnnotationsList allowLabelsList :
  g ∈ vpaMetricFamilies allowAnnotationsList allowLabelsList ->
  (generator.Name g = descVerticalPodAutoscalerAnnotationsName
   /\ generator.GenerateFunc_ g = wrapVPAFunc (annotationsFunc allowAnnotationsList))
  \/ (generator.Name g = descVerticalPodAutoscalerLabelsName
      /\ generator.GenerateFunc_ g = wrapVPAFunc (labelsFunc allowLabelsList))
  \/ (generator.Name g = updateModeName
      /\ generator.GenerateFunc_ g = wrapVPAFunc updateModeFunc)
  \/ (generator.Name g ∈ containerPoliciesNames
      /\ exists resources,
           generator.GenerateFunc_ g = wrapVPAFunc (containerPoliciesFunc resources))
  \/ (generator.Name g ∈ containerRecommendationsNames
      /\ exists resources,
           generator.GenerateFunc_ g
           = wrapVPAFunc (containerRecommendationsFunc resources)).
Proof.
  unfold vpaMetricFamilies. rewrite !elem_of_cons, elem_of_nil.
  intros [->|[->|[->|[->|[->|[->|[->|[->|[->|[]]]]]]]]]]; simpl.
  - left. done.
  - right; left. done.
  - right; right; left. done.
  - right; right; right; left. split; [apply (list_elem_of_lookup_2 _ 0); done | eauto].
  - right; right; right; left. split; [apply (list_elem_of_lookup_2 _ 1); done | eauto].
  - right; right; right; right. split; [apply (list_elem_of_lookup_2 _ 0); done | eauto].
  - right; right; right; right. split; [apply (list_elem_of_lookup_2 _ 1); done | eauto].
  - right; right; right; right. split; [apply (list_elem_of_lookup_2 _ 2); done | eauto].
  - right; right; right; right. split; [apply (list_elem_of_lookup_2 _ 3); done | eauto].
Qed.

(** The five groups of names are pairwise distinct. *)
Lemma generator_names_distinct :
  (descVerticalPodAutoscalerAnnotationsName <> descVerticalPodAutoscalerLabelsName)
  /\ (descVerticalPodAutoscalerAnnotationsName <> updateModeName)
  /\ (descVerticalPodAutoscalerLabelsName <> updateModeName)
  /\ (descVerticalPodAutoscalerAnnotationsName ∉ containerPoliciesNames)
  /\ (descVerticalPodAutoscalerAnnotationsName ∉ containerRecommendationsNames)
  /\ (descVerticalPodAutoscalerLabelsName ∉ containerPoliciesNames)
  /\ (descVerticalPodAutoscalerLabelsName ∉ containerRecommendationsNames)
  /\ (updateModeName ∉ containerPoliciesNames)
  /\ (updateModeName ∉ containerRecommendationsNames)
  /\ (forall n, n ∈ containerPoliciesNames -> n ∉ containerRecommendationsNames).
Proof.
  assert (forall (n : string) (ns : list string),
            bool_decide (n ∈ ns) = false -> n ∉ ns) as Hnot.
  { intros n ns H Hn. apply bool_decide_eq_false in H. exact (H Hn). }
  split; [discriminate|]. split; [discriminate|]. split; [discriminate|].
  do 6 (split; [apply Hnot; vm_compute; reflexivity|]).
  intros n Hn.
  unfold containerPoliciesNames in Hn. rewrite !elem_of_cons, elem_of_nil in Hn.
  destruct Hn as [->|[->|[]]]; apply Hnot; vm_compute; reflexivity.
Qed.

(** ** One block of metrics per container *)

Section ResourceBlocks.
Context {C : Type} (name : C -> string) (resources : C -> v1.ResourceList).

(** The loop over the containers appends one block per container, in the
    order of the containers. *)
Lemma appendResourceMetrics_blocks cs ms ms' :
  appendResourceMetrics name resources cs ms ms' <->
  exists blocks,
    Forall2 (fun c block => vpaResourcesToMetrics (name c) (resources c) block)
            cs blocks
    /\ ms' = ms ++ concat blocks.
Proof.
  split.
  - induction 1 as [ms|c cs ms new ms' Hnew _ (blocks & HF & ->)].
    + exists []. split; [constructor | by rewrite app_nil_r].
    + exists (new :: blocks). split; [by constructor|].
      simpl. by rewrite app_assoc.
  - intros (blocks & HF & ->). revert ms.
    induction HF as [|c block cs blocks Hb _ IH]; intros ms; simpl.
    + rewrite app_nil_r. constructor.
    + econstructor; [exact Hb|]. rewrite app_assoc. apply IH.
Qed.

Lemma vpaResourcesToMetrics_fromEntry containerName res block :
  vpaResourcesToMetrics containerName res block ->
  Forall (fromEntry containerName res) block.
Proof.
  intros (entries & P & ->)%vpaResourcesToMetrics_inv.
  apply Forall_forall. intros m ([k q] & Hin & Hm)%list_elem_of_omap.
  exists k, q. rewrite P in Hin. apply elem_of_map_to_list in Hin.
  split; [done|]. split; [|done]. apply (specResourceMetric_is_Some containerName k q).
  rewrite Hm. eauto.
Qed.

Lemma blocks_fromEntry cs blocks :
  Forall2 (fun c block => vpaResourcesToMetrics (name c) (resources c) block)
          cs blocks ->
  Forall (fun m => exists c, c ∈ cs /\ fromEntry (name c) (resources c) m)
         (concat blocks).
Proof.
  induction 1 as [|c block cs blocks Hb _ IH]; simpl; [constructor|].
  apply Forall_app. split.
  - eapply Forall_impl; [exact (vpaResourcesToMetrics_fromEntry _ _ _ Hb)|].
    intros m Hm. exists c. split; [left | done].
  - eapply Forall_impl; [exact IH|].
    intros m (c' & Hc' & Hm). exists c'. split; [by right | done].
Qed.

Lemma blocks_length cs blocks :
  Forall2 (fun c block => vpaResourcesToMetrics (name c) (resources c) block)
          cs blocks ->
  length (concat blocks) <= 4 * length cs.
Proof.
  induction 1 as [|c block cs blocks Hb _ IH]; simpl; [lia|].
  rewrite length_app.
  pose proof (vpaResourcesToMetrics_length_le_4 _ _ _ Hb). lia.
Qed.
End ResourceBlocks.

Lemma containerPoliciesFunc_wrapped resources vpa fam :
  wrapVPAFunc (containerPoliciesFunc resources) (VPAObject (Some vpa)) (Returns fam)
  <-> exists ms,
        appendResourceMetrics autoscaling.PolicyContainerName resources
          (default [] (containerPoliciesOf vpa)) [] ms
        /\ fam = withDefaultLabels vpa ms.
Proof.
  unfold containerPoliciesFunc, containerPoliciesOf. rewrite wrapVPAFunc_onVPA.
  destruct (autoscaling.ResourcePolicy (autoscaling.Spec vpa)) as [rp|];
    [destruct (autoscaling.ContainerPolicies rp) as [cs|]|]; simpl; split.
  - intros (f0 & (ms & H & ->) & [= ->]). eauto.
  - intros (ms & H & ->). exists {| metric.Metrics := ms |}. eauto.
  - intros (f0 & -> & [= ->]). exists []. split; [constructor | done].
  - intros (ms & H & ->). inversion H; subst.
    by exists {| metric.Metrics := [] |}.
  - intros (f0 & -> & [= ->]). exists []. split; [constructor | done].
  - intros (ms & H & ->). inversion H; subst.
    by exists {| metric.Metrics := [] |}.
Qed.

Lemma containerRecommendationsFunc_wrapped resources vpa fam :
  wrapVPAFunc (containerRecommendationsFunc resources) (VPAObject (Some vpa))
    (Returns fam)
  <-> exists ms,
        appendResourceMetrics autoscaling.ContainerName resources
          (default [] (containerRecommendationsOf vpa)) [] ms
        /\ fam = withDefaultLabels vpa ms.
Proof.
  unfold containerRecommendationsFunc, containerRecommendationsOf.
  rewrite wrapVPAFunc_onVPA.
  destruct (autoscaling.Recommendation (autoscaling.Status vpa)) as [r|];
    [destruct (autoscaling.ContainerRecommendations r) as [cs|]|]; simpl; split.
  - intros (f0 & (ms & H & ->) & [= ->]). eauto.
  - intros (ms & H & ->). exists {| metric.Metrics := ms |}. eauto.
  - intros (f0 & -> & [= ->]). exists []. split; [constructor | done].
  - intros (ms & H & ->). inversion H; subst.
    by exists {| metric.Metrics := [] |}.
  - intros (f0 & -> & [= ->]). exists []. split; [constructor | done].
  - intros (ms & H & ->). inversion H; subst.
    by exists {| metric.Metrics := [] |}.
Qed.

(** ** C1: label keys and label values are parallel *)

(** C1. For every VerticalPodAutoscaler object, every metric of a family
    that a typed extraction function of [vpaMetricFamilies] returns (before
    the default-label wrapper runs) has as many label keys as label values,
    and so has every metric of a family that a generator of
    [vpaMetricFamilies] returns (after the wrapper ran); and every generator
    does return a family for the object, and does not panic. *)
Theorem vpaMetricFamilies_labels_aligned
    (allowAnnotationsList allowLabelsList : list string)
    (vpa : autoscaling.VerticalPodAutoscaler) :
  (forall f fam,
     f ∈ vpaTypedFuncs allowAnnotationsList allowLabelsList ->
     f (Some vpa) (Returns fam) ->
     Forall (fun m => length (metric.LabelKeys m) = length (metric.LabelValues m))
            (metric.Metrics fam))
  /\ (forall g fam,
        g ∈ vpaMetricFamilies allowAnnotationsList allowLabelsList ->
        generator.GenerateFunc_ g (VPAObject (Some vpa)) (Returns fam) ->
        Forall (fun m => length (metric.LabelKeys m) = length (metric.LabelValues m))
               (metric.Metrics fam))
  /\ (forall g,
        g ∈ vpaMetricFamilies allowAnnotationsList allowLabelsList ->
        (exists fam, generator.GenerateFunc_ g (VPAObject (Some vpa)) (Returns fam))
        /\ (forall e, ~ generator.GenerateFunc_ g (VPAObject (Some vpa)) (Panics e))).
Proof.
  split; [|split].
  - intros f fam Hf H. exact (vpaTypedFuncs_aligned _ _ _ _ _ Hf H).
  - intros g fam Hg H.
    apply vpaMetricFamilies_elem in Hg as (f & Hf & Hgf). rewrite Hgf in H.
    apply wrapVPAFunc_returns_inv in H as (fam0 & H0 & ->). simpl.
    apply Forall_fmap.
    eapply Forall_impl; [exact (vpaTypedFuncs_aligned _ _ _ _ _ Hf H0)|].
    intros m Hm. by apply prependDefaultLabels_aligned.
  - intros g Hg.
    apply vpaMetricFamilies_elem in Hg as (f & Hf & Hgf). rewrite Hgf. split.
    + destruct (vpaTypedFuncs_total _ _ _ vpa Hf) as [fam H].
      eexists. by constructor.
    + intros e H%wrapVPAFunc_panics_inv.
      by eapply vpaTypedFuncs_no_panic.
Qed.

Lemma vpaMetricFamilies_labels_aligned_witness :
  (containerPoliciesFunc autoscaling.MinAllowed (Some exampleVPA)
     (Returns exampleMinAllowedTyped)
   /\ Forall (fun m => length (metric.LabelKeys m) = length (metric.LabelValues m))
             (metric.Metrics exampleMinAllowedTyped))
  /\ (wrapVPAFunc (containerPoliciesFunc autoscaling.MinAllowed)
        (VPAObject (Some exampleVPA)) (Returns exampleMinAllowedFamily)
      /\ Forall (fun m => length (metric.LabelKeys m) = length (metric.LabelValues m))
                (metric.Metrics exampleMinAllowedFamily)).
Proof.
  pose proof (vpaMetricFamilies_labels_aligned ["*"] ["app"] exampleVPA) as (T & G & _).
  split; split.
  - exact exampleMinAllowedTyped_run.
  - apply (T (containerPoliciesFunc autoscaling.MinAllowed)).
    + apply (list_elem_of_lookup_2 _ 3). reflexivity.
    + exact exampleMinAllowedTyped_run.
  - exact exampleMinAllowedFamily_run.
  - apply (G (generator.NewFamilyGenerator
                "kube_verticalpodautoscaler_spec_resourcepolicy_container_policies_minallowed"
                "Minimum resources the VerticalPodAutoscaler can set for containers matching the name."
                metric.Gauge ""
                (wrapVPAFunc (containerPoliciesFunc autoscaling.MinAllowed)))).
    + apply (list_elem_of_lookup_2 _ 3). reflexivity.
    + exact exampleMinAllowedFamily_run.
Defined.

(** ** C2: the default identifying labels *)

(** C2. For every typed function [f] and every VerticalPodAutoscaler
    object, the wrapped function returns exactly the family of [f] in which
    every metric has the five keys namespace, verticalpodautoscaler,
    target_api_version, target_kind, target_name put in front of its keys and
    the object's namespace, its name and the api-version, kind and name of
    its target reference put in front of its values; the wrapper itself never
    panics on such an object, and without a target reference the three target
    values are empty strings. *)
Theorem wrapVPAFunc_prepends_default_labels (f : TypedFunc)
    (vpa : autoscaling.VerticalPodAutoscaler) :
  (forall fam' : metric.Family,
     wrapVPAFunc f (VPAObject (Some vpa)) (Returns fam') <->
     exists fam : metric.Family,
       f (Some vpa) (Returns fam)
       /\ fam' =
          {| metric.Metrics :=
               (fun m =>
                  {| metric.LabelKeys :=
                       ["namespace"; "verticalpodautoscaler"; "target_api_version";
                        "target_kind"; "target_name"] ++ metric.LabelKeys m;
                     metric.LabelValues :=
                       specDefaultLabelValues vpa ++ metric.LabelValues m;
                     metric.Value := metric.Value m |})
               <$> metric.Metrics fam |})
  /\ (forall e, wrapVPAFunc f (VPAObject (Some vpa)) (Panics e) <->
                f (Some vpa) (Panics e))
  /\ (forall ref,
        autoscaling.TargetRef (autoscaling.Spec vpa) = Some ref ->
        specDefaultLabelValues vpa =
        [metav1.Namespace (autoscaling.ObjectMeta vpa);
         metav1.Name (autoscaling.ObjectMeta vpa);
         autoscalingv1.APIVersion ref; autoscalingv1.Kind ref;
         autoscalingv1.Name ref])
  /\ (autoscaling.TargetRef (autoscaling.Spec vpa) = None ->
      specDefaultLabelValues vpa =
      [metav1.Namespace (autoscaling.ObjectMeta vpa);
       metav1.Name (autoscaling.ObjectMeta vpa); ""; ""; ""]).
Proof.
  pose proof (prependDefaultLabels_withDefaultLabels vpa) as E.
  unfold withDefaultLabels in E.
  repeat split.
  - intros (fam & H & ->)%wrapVPAFunc_returns_inv. exists fam. by rewrite E.
  - intros (fam & H & ->). rewrite <- E. by constructor.
  - apply wrapVPAFunc_panics_inv.
  - intros H. by constructor.
  - unfold specDefaultLabelValues. by intros ref ->.
  - unfold specDefaultLabelValues. by intros ->.
Qed.

Lemma wrapVPAFunc_prepends_default_labels_witness :
  wrapVPAFunc exampleTypedFunc (VPAObject (Some bareVPA))
    (Returns {| metric.Metrics :=
                  [ {| metric.LabelKeys :=
                         ["namespace"; "verticalpodautoscaler"; "target_api_version";
                          "target_kind"; "target_name"];
                       metric.LabelValues := ["ns2"; "vpa2"; ""; ""; ""];
                       metric.Value := Float64.one |} ] |})
  /\ specDefaultLabelValues bareVPA = ["ns2"; "vpa2"; ""; ""; ""].
Proof.
  pose proof (wrapVPAFunc_prepends_default_labels exampleTypedFunc bareVPA)
    as (R & _ & _ & N).
  split.
  - apply R. eexists. split; [apply exampleTypedFunc_run | reflexivity].
  - apply N. reflexivity.
Defined.

(** ** C3: the conversion of a resource list *)

Lemma exampleResources_metrics containerName :
  omap (specResourceMetric containerName) (map_to_list exampleResources)
  = [exampleCPUMetric containerName; exampleMemoryMetric containerName].
Proof. vm_compute. reflexivity. Qed.

Lemma largeMemory_metrics :
  omap (specResourceMetric "c") (map_to_list largeMemory) = [largeMemoryMetric].
Proof. vm_compute. reflexivity. Qed.

(** C3, as the specification states it, fails: a memory quantity of
    2^53 + 1 = 9007199254740993 bytes gives one metric, and the value of that
    metric is the float 2^53 = 9007199254740992, not the integer value of the
    quantity. *)
Lemma vpaResourcesToMetrics_exact_counterexample :
  largeMemory !! "memory" = Some (resource.ofMilli 9007199254740993000)
  /\ resource.Value (resource.ofMilli 9007199254740993000) = 9007199254740993%Z
  /\ vpaResourcesToMetrics "c" largeMemory [largeMemoryMetric]
  /\ (forall ms, vpaResourcesToMetrics "c" largeMemory ms -> ms = [largeMemoryMetric])
  /\ Float64.is_integer (metric.Value largeMemoryMetric) 9007199254740992
  /\ ~ Float64.is_integer (metric.Value largeMemoryMetric) 9007199254740993.
Proof.
  split; [reflexivity|]. split; [reflexivity|]. split; [|split; [|split]].
  - rewrite <- largeMemory_metrics, <- resourcesToMetricsIn_spec.
    apply vpaResourcesToMetrics_total.
  - intros ms (entries & P & ->)%vpaResourcesToMetrics_inv.
    rewrite <- largeMemory_metrics. f_equal.
    assert (map_to_list largeMemory
            = [("memory", resource.ofMilli 9007199254740993000)]) as E
      by (vm_compute; reflexivity).
    rewrite E in P |- *. by apply Permutation_singleton_r.
  - split; [lia|]. left. split; [lia | reflexivity].
  - intros [_ [[_ H] | [H _]]]; [discriminate H | lia].
Qed.

(** C3, amended. For every container name and every resource list,
    [vpaResourcesToMetrics] has a result, and each of its results is the
    specified conversion of the entries of the list in the order they were
    visited: one metric for a cpu quantity, with the float of the milli-value
    divided by 1000 and the unit core; one metric for a memory, storage or
    ephemeral-storage quantity, with the float of the integer value, which is
    that integer exactly when its magnitude is at most 2^53, and the unit
    byte; nothing for any other resource name. The list with cpu 500m and
    memory 128Mi gives exactly two metrics, with the values 0.5 and
    134217728. *)
Theorem vpaResourcesToMetrics_conversion (containerName : string)
    (resources : gmap string resource.Quantity) :
  (exists ms, vpaResourcesToMetrics containerName resources ms)
  /\ (forall ms,
        vpaResourcesToMetrics containerName resources ms ->
        exists entries,
          entries ≡ₚ map_to_list resources
          /\ ms = omap (specResourceMetric containerName) entries)
  /\ (forall resourceName q,
        resourceName ∉ ["cpu"; "memory"; "storage"; "ephemeral-storage"] ->
        specResourceMetric containerName (resourceName, q) = None)
  /\ (forall q, (Z.abs (resource.Value q) <= 2 ^ 53)%Z ->
        Float64.is_integer (Float64.of_int (resource.Value q)) (resource.Value q))
  /\ (forall ms,
        vpaResourcesToMetrics containerName exampleResources ms ->
        ms ≡ₚ [exampleCPUMetric containerName; exampleMemoryMetric containerName])
  /\ Float64.represents (metric.Value (exampleCPUMetric containerName)) 1 2
  /\ Float64.is_integer (metric.Value (exampleMemoryMetric containerName)) 134217728.
Proof.
  split; [|split; [|split; [|split; [|split; [|split]]]]].
  - eexists. apply vpaResourcesToMetrics_total.
  - apply vpaResourcesToMetrics_inv.
  - intros resourceName q. rewrite !elem_of_cons, elem_of_nil. intros Hn.
    unfold specResourceMetric.
    rewrite decide_False by tauto.
    rewrite decide_False by (rewrite !elem_of_cons, elem_of_nil; tauto). done.
  - intros q Hq. by apply of_int_exact.
  - intros ms (entries & P & ->)%vpaResourcesToMetrics_inv.
    rewrite <- exampleResources_metrics. by apply omap_Permutation.
  - exact half_is_half.
  - apply (of_int_exact 134217728). vm_compute. discriminate.
Qed.

Lemma vpaResourcesToMetrics_conversion_witness :
  vpaResourcesToMetrics "*" exampleResources
    (resourcesToMetricsIn "*" (map_to_list exampleResources))
  /\ resourcesToMetricsIn "*" (map_to_list exampleResources)
     ≡ₚ [exampleCPUMetric "*"; exampleMemoryMetric "*"].
Proof.
  pose proof (vpaResourcesToMetrics_total "*" exampleResources) as H.
  split; [exact H|].
  exact (proj1 (proj2 (proj2 (proj2 (proj2
           (vpaResourcesToMetrics_conversion "*" exampleResources))))) _ H).
Defined.

(** ** C4: unset optional substructures *)

Lemma updateModeFunc_unset vpa o :
  updateModeUnset vpa ->
  wrapVPAFunc updateModeFunc (VPAObject (Some vpa)) o
  <-> o = Returns {| metric.Metrics := [] |}.
Proof.
  intros Hu. unfold updateModeFunc. rewrite wrapVPAFunc_onVPA.
  destruct Hu as [-> | (up & -> & ->)]; split;
    try (intros (fam & -> & ->); reflexivity);
    intros ->; by exists {| metric.Metrics := [] |}.
Qed.

Lemma containerPoliciesFunc_unset resources vpa o :
  containerPoliciesUnset vpa ->
  wrapVPAFunc (containerPoliciesFunc resources) (VPAObject (Some vpa)) o
  <-> o = Returns {| metric.Metrics := [] |}.
Proof.
  intros Hu. unfold containerPoliciesFunc. rewrite wrapVPAFunc_onVPA.
  destruct Hu as [-> | (rp & -> & ->)]; split;
    try (intros (fam & -> & ->); reflexivity);
    intros ->; by exists {| metric.Metrics := [] |}.
Qed.

Lemma containerRecommendationsFunc_unset resources vpa o :
  containerRecommendationsUnset vpa ->
  wrapVPAFunc (containerRecommendationsFunc resources) (VPAObject (Some vpa)) o
  <-> o = Returns {| metric.Metrics := [] |}.
Proof.
  intros Hu. unfold containerRecommendationsFunc. rewrite wrapVPAFunc_onVPA.
  destruct Hu as [-> | (r & -> & ->)]; split;
    try (intros (fam & -> & ->); reflexivity);
    intros ->; by exists {| metric.Metrics := [] |}.
Qed.

(** C4. For every VerticalPodAutoscaler object and every generator of
    [vpaMetricFamilies] that reads an optional substructure (the update-mode
    generator reads Spec.UpdatePolicy.UpdateMode, the min-allowed and
    max-allowed generators read Spec.ResourcePolicy.ContainerPolicies, the
    four recommendation generators read
    Status.Recommendation.ContainerRecommendations): when that substructure
    is unset, the one outcome of the generator is a returned family with no
    metric; it does not panic. *)
Theorem unset_substructure_empty_family
    (allowAnnotationsList allowLabelsList : list string)
    (vpa : autoscaling.VerticalPodAutoscaler) (g : generator.FamilyGenerator) :
  g ∈ vpaMetricFamilies allowAnnotationsList allowLabelsList ->
  (generator.Name g = updateModeName /\ updateModeUnset vpa)
  \/ (generator.Name g ∈ containerPoliciesNames /\ containerPoliciesUnset vpa)
  \/ (generator.Name g ∈ containerRecommendationsNames
      /\ containerRecommendationsUnset vpa) ->
  forall o,
    generator.GenerateFunc_ g (VPAObject (Some vpa)) o
    <-> o = Returns {| metric.Metrics := [] |}.
Proof.
  intros Hg Hcase o.
  destruct generator_names_distinct
    as (D1 & D2 & D3 & D4 & D5 & D6 & D7 & D8 & D9 & D10).
  apply vpaMetricFamilies_by_name in Hg
    as [[Hn ->]|[[Hn ->]|[[Hn ->]|[[Hn [res ->]]|[Hn [res ->]]]]]];
    destruct Hcase as [[Hm Hu]|[[Hm Hu]|[Hm Hu]]];
    try (rewrite Hn in Hm); try (rewrite Hm in Hn);
    try (exfalso; first [ by apply D4 | by apply D5 | by apply D6 | by apply D7
                        | by apply D8 | by apply D9 | by eapply D10
                        | congruence ]).
  - by apply updateModeFunc_unset.
  - by apply containerPoliciesFunc_unset.
  - by apply containerRecommendationsFunc_unset.
Qed.

Lemma unset_substructure_empty_family_witness :
  wrapVPAFunc (containerRecommendationsFunc autoscaling.Target)
    (VPAObject (Some bareVPA)) (Returns {| metric.Metrics := [] |})
  /\ wrapVPAFunc updateModeFunc
       (VPAObject (Some bareVPA)) (Returns {| metric.Metrics := [] |}).
Proof.
  split.
  - apply (unset_substructure_empty_family [] [] bareVPA
             (generator.NewFamilyGenerator
                "kube_verticalpodautoscaler_status_recommendation_containerrecommendations_target"
                "Target resources the VerticalPodAutoscaler recommends for the container."
                metric.Gauge ""
                (wrapVPAFunc (containerRecommendationsFunc autoscaling.Target)))).
    + apply (list_elem_of_lookup_2 _ 7). reflexivity.
    + right; right. split.
      * apply (list_elem_of_lookup_2 _ 2). reflexivity.
      * left. reflexivity.
    + reflexivity.
  - apply (unset_substructure_empty_family [] [] bareVPA
             (generator.NewFamilyGenerator
                "kube_verticalpodautoscaler_spec_updatepolicy_updatemode"
                "Update mode of the VerticalPodAutoscaler."
                metric.Gauge ""
                (wrapVPAFunc updateModeFunc))).
    + apply (list_elem_of_lookup_2 _ 2). reflexivity.
    + left. split; [reflexivity | left; reflexivity].
    + reflexivity.
Defined.

(** ** C5: repeated invocation *)

Section ReferenceRuns.
Context (order : list (string * resource.Quantity) -> list (string * resource.Quantity)).
Hypothesis order_Permutation : forall l, order l ≡ₚ l.

Lemma appendResourceMetrics_foldl {C : Type} (name : C -> string)
    (resources : C -> v1.ResourceList) cs ms :
  appendResourceMetrics name resources cs ms
    (foldl (fun ms c =>
              ms ++ resourcesToMetricsIn (name c) (order (map_to_list (resources c))))
           ms cs).
Proof.
  revert ms. induction cs as [|c cs IH]; intros ms; simpl; [constructor|].
  econstructor; [|apply IH]. constructor. apply order_Permutation.
Qed.

Lemma typedFamiliesIn_sound allowAnnotationsList allowLabelsList a :
  Forall2 (fun (f : TypedFunc) fam => f (Some a) (Returns fam))
    (vpaTypedFuncs allowAnnotationsList allowLabelsList)
    (typedFamiliesIn order allowAnnotationsList allowLabelsList a).
Proof.
  assert (forall res,
            containerPoliciesFunc res (Some a)
              (Returns (resourceMetricsIn order autoscaling.PolicyContainerName res
                          (containerPoliciesOf a)))) as HP.
  { intros res. apply onVPA_returns. unfold containerPoliciesOf, resourceMetricsIn.
    destruct (autoscaling.ResourcePolicy _) as [rp|]; [|done].
    destruct (autoscaling.ContainerPolicies rp) as [cs|]; [|done].
    eexists. split; [apply appendResourceMetrics_foldl | done]. }
  assert (forall res,
            containerRecommendationsFunc res (Some a)
              (Returns (resourceMetricsIn order autoscaling.ContainerName res
                          (containerRecommendationsOf a)))) as HR.
  { intros res. apply onVPA_returns.
    unfold containerRecommendationsOf, resourceMetricsIn.
    destruct (autoscaling.Recommendation _) as [r|]; [|done].
    destruct (autoscaling.ContainerRecommendations r) as [cs|]; [|done].
    eexists. split; [apply appendResourceMetrics_foldl | done]. }
  unfold vpaTypedFuncs, typedFamiliesIn.
  repeat (apply Forall2_cons; split); try apply HP; try apply HR;
    try apply Forall2_nil_2; apply onVPA_returns.
  - by destruct (createPrometheusLabelKeysValues _ _ _).
  - by destruct (createPrometheusLabelKeysValues _ _ _).
  - destruct (autoscaling.UpdatePolicy _) as [up|]; [|done].
    by destruct (autoscaling.UpdateMode_ up).
Qed.

(** A reference run is a run of the registry. *)
Lemma invokeIn_sound allowAnnotationsList allowLabelsList vpa :
  invoke (vpaMetricFamilies allowAnnotationsList allowLabelsList)
    (VPAObject (Some vpa))
    (invokeIn order allowAnnotationsList allowLabelsList vpa).
Proof.
  unfold invoke, invokeIn.
  apply Forall2_fmap_r.
  assert (Forall2 (fun (gf : GenerateFunc) fam =>
                     gf (VPAObject (Some vpa))
                       (Returns {| metric.Metrics :=
                                     prependDefaultLabels vpa (targetRefOf vpa)
                                       <$> metric.Metrics fam |}))
            (generator.GenerateFunc_ <$>
               vpaMetricFamilies allowAnnotationsList allowLabelsList)
            (typedFamiliesIn order allowAnnotationsList allowLabelsList vpa)) as H.
  { rewrite vpaMetricFamilies_wraps. apply Forall2_fmap_l.
    eapply Forall2_impl; [apply typedFamiliesIn_sound|].
    intros f fam Hf. by constructor. }
  by apply Forall2_fmap_l in H.
Qed.
End ReferenceRuns.

Lemma containerPoliciesFunc_Permutation resources a fam1 fam2 :
  containerPoliciesFunc resources (Some a) (Returns fam1) ->
  containerPoliciesFunc resources (Some a) (Returns fam2) ->
  metric.Metrics fam1 ≡ₚ metric.Metrics fam2.
Proof.
  intros H1%onVPA_returns H2%onVPA_returns.
  destruct (autoscaling.ResourcePolicy (autoscaling.Spec a)) as [rp|];
    [destruct (autoscaling.ContainerPolicies rp) as [cs|]|]; try by subst.
  destruct H1 as (ms1 & H1 & ->), H2 as (ms2 & H2 & ->). simpl.
  by eapply appendResourceMetrics_Permutation.
Qed.

Lemma containerRecommendationsFunc_Permutation resources a fam1 fam2 :
  containerRecommendationsFunc resources (Some a) (Returns fam1) ->
  containerRecommendationsFunc resources (Some a) (Returns fam2) ->
  metric.Metrics fam1 ≡ₚ metric.Metrics fam2.
Proof.
  intros H1%onVPA_returns H2%onVPA_returns.
  destruct (autoscaling.Recommendation (autoscaling.Status a)) as [r|];
    [destruct (autoscaling.ContainerRecommendations r) as [cs|]|]; try by subst.
  destruct H1 as (ms1 & H1 & ->), H2 as (ms2 & H2 & ->). simpl.
  by eapply appendResourceMetrics_Permutation.
Qed.

Lemma vpaTypedFuncs_Permutation f allowAnnotationsList allowLabelsList a fam1 fam2 :
  f ∈ vpaTypedFuncs allowAnnotationsList allowLabelsList ->
  f (Some a) (Returns fam1) -> f (Some a) (Returns fam2) ->
  metric.Metrics fam1 ≡ₚ metric.Metrics fam2.
Proof.
  intros Hf H1 H2. vpaTypedFuncs_cases Hf;
    try (by eapply containerPoliciesFunc_Permutation);
    try (by eapply containerRecommendationsFunc_Permutation);
    apply onVPA_returns in H1, H2.
  - destruct (createPrometheusLabelKeysValues _ _ _). by subst.
  - destruct (createPrometheusLabelKeysValues _ _ _). by subst.
  - destruct (autoscaling.UpdatePolicy _) as [up|];
      [destruct (autoscaling.UpdateMode_ up)|]; by subst.
Qed.

Lemma Forall2_two_runs {A B : Type} (P : A -> B -> Prop) (R : B -> B -> Prop)
    (l : list A) (k1 k2 : list B) :
  (forall a b1 b2, a ∈ l -> P a b1 -> P a b2 -> R b1 b2) ->
  Forall2 P l k1 -> Forall2 P l k2 -> Forall2 R k1 k2.
Proof.
  intros HR H1. revert k2.
  induction H1 as [|a b1 l k1 Hab1 _ IH]; intros k2 H2;
    inversion H2 as [|? b2 ? k2' Hab2 H2']; subst; constructor.
  - eapply HR; [left | done | done].
  - apply IH; [|done]. intros a' c1 c2 Ha'. apply HR. by right.
Qed.

(** C5, as the specification states it, fails: two invocations of the
    generators on the same object, in which the runtime visits the resource
    list with cpu 500m and memory 128Mi in opposite orders, give different
    sequences of families; the families of the min-allowed generator hold the
    cpu metric and the memory metric in opposite orders. *)
Lemma invoke_twice_counterexample :
  invoke (vpaMetricFamilies [] []) (VPAObject (Some exampleVPA))
    (invokeIn id [] [] exampleVPA)
  /\ invoke (vpaMetricFamilies [] []) (VPAObject (Some exampleVPA))
       (invokeIn reverse [] [] exampleVPA)
  /\ invokeIn id [] [] exampleVPA <> invokeIn reverse [] [] exampleVPA
  /\ (metric.LabelValues <$> metric.Metrics exampleMinAllowedFamily
      = [["ns1"; "vpa1"; "extensions/v1beta1"; "Deployment"; "deployment1";
          "*"; "cpu"; "core"];
         ["ns1"; "vpa1"; "extensions/v1beta1"; "Deployment"; "deployment1";
          "*"; "memory"; "byte"]])
  /\ (metric.LabelValues <$> metric.Metrics exampleMinAllowedFamilyRev
      = [["ns1"; "vpa1"; "extensions/v1beta1"; "Deployment"; "deployment1";
          "*"; "memory"; "byte"];
         ["ns1"; "vpa1"; "extensions/v1beta1"; "Deployment"; "deployment1";
          "*"; "cpu"; "core"]])
  /\ invokeIn id [] [] exampleVPA !! 3 = Some exampleMinAllowedFamily
  /\ invokeIn reverse [] [] exampleVPA !! 3 = Some exampleMinAllowedFamilyRev.
Proof.
  split; [|split; [|split; [|split; [|split; [|split]]]]].
  - apply invokeIn_sound. reflexivity.
  - apply invokeIn_sound. intros l. apply reverse_Permutation.
  - intros H.
    assert (invokeIn id [] [] exampleVPA !! 3 = invokeIn reverse [] [] exampleVPA !! 3)
      as H3 by (by rewrite H).
    vm_compute in H3. discriminate H3.
  - vm_compute. reflexivity.
  - vm_compute. reflexivity.
  - reflexivity.
  - reflexivity.
Qed.

(** *** Blocks of a resource family *)

Lemma blockwisePermutation_small sizes ms1 ms2 :
  Forall (fun n => n <= 1) sizes ->
  blockwisePermutation sizes ms1 ms2 -> ms1 = ms2.
Proof.
  intros Hs. revert ms1 ms2.
  induction Hs as [|n sizes Hn _ IH]; intros ms1 ms2 (L1 & L2 & HF).
  - destruct ms1, ms2; done.
  - simpl in L1, L2, HF.
    apply Forall2_cons in HF as [Hp HF].
    assert (drop n ms1 = drop n ms2) as Hd.
    { apply IH. split; [rewrite length_drop; lia|].
      split; [rewrite length_drop; lia | exact HF]. }
    assert (take n ms1 = take n ms2) as Ht.
    { pose proof (length_take_le ms1 n ltac:(lia)) as Hl.
      destruct (take n ms1) as [|m [|m' t]].
      - by apply Permutation_nil_l in Hp.
      - by apply Permutation_singleton_l in Hp.
      - simpl in Hl. lia. }
    by rewrite <- (take_drop n ms1), <- (take_drop n ms2), Hd, Ht.
Qed.

Section Blockwise.
Context {C : Type} (name : C -> string) (resources : C -> v1.ResourceList).

(** Two runs of the loop over the same containers give block for block the
    same metrics up to their order inside the block. *)
Lemma blocks_blockwisePermutation (f : metric.Metric -> metric.Metric)
    cs blocks1 blocks2 :
  Forall2 (fun c block => vpaResourcesToMetrics (name c) (resources c) block)
          cs blocks1 ->
  Forall2 (fun c block => vpaResourcesToMetrics (name c) (resources c) block)
          cs blocks2 ->
  blockwisePermutation (blockSizes resources cs)
    (f <$> concat blocks1) (f <$> concat blocks2).
Proof.
  intros H1. revert blocks2.
  induction H1 as [|c b1 cs bs1 Hb1 _ IH]; intros blocks2 H2;
    inversion H2 as [|? b2 ? bs2 Hb2 H2']; subst.
  - split; [done|]. split; [done|]. constructor.
  - destruct (IH _ H2') as (L1 & L2 & HF).
    pose proof (vpaResourcesToMetrics_length _ _ _ Hb1) as E1.
    pose proof (vpaResourcesToMetrics_length _ _ _ Hb2) as E2.
    unfold blockwisePermutation, blockSizes in *. rewrite fmap_cons.
    cbn [concat cutBlocks sum_list_with]. rewrite !fmap_app, !length_app, !length_fmap.
    rewrite !length_fmap in L1, L2.
    split; [by rewrite E1, L1|]. split; [by rewrite E2, L2|].
    rewrite !take_app_length', !drop_app_length' by (by rewrite length_fmap).
    constructor; [|exact HF].
    apply fmap_Permutation. by eapply vpaResourcesToMetrics_Permutation.
Qed.
End Blockwise.

Lemma containerPoliciesFunc_blockwise resources vpa fam1 fam2 :
  wrapVPAFunc (containerPoliciesFunc resources) (VPAObject (Some vpa)) (Returns fam1) ->
  wrapVPAFunc (containerPoliciesFunc resources) (VPAObject (Some vpa)) (Returns fam2) ->
  blockwisePermutation
    (blockSizes resources (default [] (containerPoliciesOf vpa)))
    (metric.Metrics fam1) (metric.Metrics fam2).
Proof.
  intros (ms1 & H1 & ->)%containerPoliciesFunc_wrapped
         (ms2 & H2 & ->)%containerPoliciesFunc_wrapped.
  apply appendResourceMetrics_blocks in H1 as (b1 & F1 & ->).
  apply appendResourceMetrics_blocks in H2 as (b2 & F2 & ->).
  unfold withDefaultLabels. cbn [metric.Metrics app].
  by eapply blocks_blockwisePermutation.
Qed.

Lemma containerRecommendationsFunc_blockwise resources vpa fam1 fam2 :
  wrapVPAFunc (containerRecommendationsFunc resources) (VPAObject (Some vpa))
    (Returns fam1) ->
  wrapVPAFunc (containerRecommendationsFunc resources) (VPAObject (Some vpa))
    (Returns fam2) ->
  blockwisePermutation
    (blockSizes resources (default [] (containerRecommendationsOf vpa)))
    (metric.Metrics fam1) (metric.Metrics fam2).
Proof.
  intros (ms1 & H1 & ->)%containerRecommendationsFunc_wrapped
         (ms2 & H2 & ->)%containerRecommendationsFunc_wrapped.
  apply appendResourceMetrics_blocks in H1 as (b1 & F1 & ->).
  apply appendResourceMetrics_blocks in H2 as (b2 & F2 & ->).
  unfold withDefaultLabels. cbn [metric.Metrics app].
  by eapply blocks_blockwisePermutation.
Qed.

(** C5, amended. For every VerticalPodAutoscaler object the generators of
    [vpaMetricFamilies] can be invoked, and any two invocations on the same
    object give the same number of families, in the declaration order of the
    generators. The annotations, labels and update-mode families are
    identical. Each of the six resource families is cut, in both
    invocations at the same places, into one block per container of the
    object, in the order of the container list, the block of a container
    having one metric per recognised key of its resource list; the two
    invocations give block for block the same metrics (label sequences and
    values), up to the order of the metrics inside one block. Hence the
    families of one generator hold the same metrics up to their order. *)
Theorem invoke_twice_same_metrics
    (allowAnnotationsList allowLabelsList : list string)
    (vpa : autoscaling.VerticalPodAutoscaler) :
  (exists fams,
     invoke (vpaMetricFamilies allowAnnotationsList allowLabelsList)
       (VPAObject (Some vpa)) fams)
  /\ (forall fams1 fams2,
        invoke (vpaMetricFamilies allowAnnotationsList allowLabelsList)
          (VPAObject (Some vpa)) fams1 ->
        invoke (vpaMetricFamilies allowAnnotationsList allowLabelsList)
          (VPAObject (Some vpa)) fams2 ->
        length fams1 = 9 /\ length fams2 = 9
        /\ Forall2 (fun fam1 fam2 => metric.Metrics fam1 ≡ₚ metric.Metrics fam2)
                   fams1 fams2
        /\ take 3 fams1 = take 3 fams2
        /\ Forall3 (fun sizes fam1 fam2 =>
                      blockwisePermutation sizes
                        (metric.Metrics fam1) (metric.Metrics fam2))
                   (resourceBlockSizes vpa) (drop 3 fams1) (drop 3 fams2)).
Proof.
  split.
  - exists (invokeIn id allowAnnotationsList allowLabelsList vpa).
    apply invokeIn_sound. reflexivity.
  - intros fams1 fams2 H1 H2.
    split; [by rewrite <- (Forall2_length _ _ _ H1)|].
    split; [by rewrite <- (Forall2_length _ _ _ H2)|].
    split.
    { eapply Forall2_two_runs; [|exact H1|exact H2].
      intros g fam1 fam2 Hg R1 R2. simpl in R1, R2.
      apply vpaMetricFamilies_elem in Hg as (f & Hf & Hgf). rewrite Hgf in R1, R2.
      apply wrapVPAFunc_returns_inv in R1 as (t1 & T1 & ->).
      apply wrapVPAFunc_returns_inv in R2 as (t2 & T2 & ->). simpl.
      apply fmap_Permutation. by eapply vpaTypedFuncs_Permutation. }
    unfold invoke, vpaMetricFamilies in H1, H2.
    apply Forall2_cons_inv_l in H1 as (a1 & r1 & A1 & H1 & ->).
    apply Forall2_cons_inv_l in H1 as (b1 & r1' & B1 & H1 & ->).
    apply Forall2_cons_inv_l in H1 as (c1 & r1'' & C1 & H1 & ->).
    apply Forall2_cons_inv_l in H2 as (a2 & r2 & A2 & H2 & ->).
    apply Forall2_cons_inv_l in H2 as (b2 & r2' & B2 & H2 & ->).
    apply Forall2_cons_inv_l in H2 as (c2 & r2'' & C2 & H2 & ->).
    cbn [take drop]. split.
    + simpl in A1, A2, B1, B2, C1, C2.
      apply wrapVPAFunc_onVPA in A1 as (x1 & X1 & [= ->]).
      apply wrapVPAFunc_onVPA in A2 as (x2 & X2 & [= ->]).
      apply wrapVPAFunc_onVPA in B1 as (y1 & Y1 & [= ->]).
      apply wrapVPAFunc_onVPA in B2 as (y2 & Y2 & [= ->]).
      apply wrapVPAFunc_onVPA in C1 as (z1 & Z1 & [= ->]).
      apply wrapVPAFunc_onVPA in C2 as (z2 & Z2 & [= ->]).
      assert (x1 = x2) as ->
        by (destruct (createPrometheusLabelKeysValues "annotation" _ _); congruence).
      assert (y1 = y2) as ->
        by (destruct (createPrometheusLabelKeysValues "label" _ _); congruence).
      assert (z1 = z2) as ->
        by (destruct (autoscaling.UpdatePolicy _) as [up|];
            [destruct (autoscaling.UpdateMode_ up)|]; congruence).
      reflexivity.
    + apply Forall2_cons_inv_l in H1 as (d1 & s1 & D1 & H1 & ->).
      apply Forall2_cons_inv_l in H1 as (e1 & s1' & E1 & H1 & ->).
      apply Forall2_cons_inv_l in H1 as (l1 & t1 & L1 & H1 & ->).
      apply Forall2_cons_inv_l in H1 as (u1 & t1' & U1 & H1 & ->).
      apply Forall2_cons_inv_l in H1 as (g1 & v1 & G1 & H1 & ->).
      apply Forall2_cons_inv_l in H1 as (n1 & v1' & N1 & H1 & ->).
      apply Forall2_nil_inv_l in H1 as ->.
      apply Forall2_cons_inv_l in H2 as (d2 & s2 & D2 & H2 & ->).
      apply Forall2_cons_inv_l in H2 as (e2 & s2' & E2 & H2 & ->).
      apply Forall2_cons_inv_l in H2 as (l2 & t2 & L2 & H2 & ->).
      apply Forall2_cons_inv_l in H2 as (u2 & t2' & U2 & H2 & ->).
      apply Forall2_cons_inv_l in H2 as (g2 & v2 & G2 & H2 & ->).
      apply Forall2_cons_inv_l in H2 as (n2 & v2' & N2 & H2 & ->).
      apply Forall2_nil_inv_l in H2 as ->.
      simpl in D1, D2, E1, E2, L1, L2, U1, U2, G1, G2, N1, N2.
      unfold resourceBlockSizes.
      repeat (apply Forall3_cons || apply Forall3_nil);
        first [ by eapply containerPoliciesFunc_blockwise
              | by eapply containerRecommendationsFunc_blockwise ].
Qed.

Lemma invoke_twice_same_metrics_witness :
  invoke (vpaMetricFamilies [] []) (VPAObject (Some exampleVPA))
    (invokeIn id [] [] exampleVPA)
  /\ invoke (vpaMetricFamilies [] []) (VPAObject (Some exampleVPA))
       (invokeIn reverse [] [] exampleVPA)
  /\ Forall2 (fun fam1 fam2 => metric.Metrics fam1 ≡ₚ metric.Metrics fam2)
       (invokeIn id [] [] exampleVPA) (invokeIn reverse [] [] exampleVPA)
  /\ Forall3 (fun sizes fam1 fam2 =>
                blockwisePermutation sizes
                  (metric.Metrics fam1) (metric.Metrics fam2))
       (resourceBlockSizes exampleVPA)
       (drop 3 (invokeIn id [] [] exampleVPA))
       (drop 3 (invokeIn reverse [] [] exampleVPA)).
Proof.
  assert (invoke (vpaMetricFamilies [] []) (VPAObject (Some exampleVPA))
            (invokeIn id [] [] exampleVPA)) as H1
    by (apply invokeIn_sound; reflexivity).
  assert (invoke (vpaMetricFamilies [] []) (VPAObject (Some exampleVPA))
            (invokeIn reverse [] [] exampleVPA)) as H2
    by (apply invokeIn_sound; intros l; apply reverse_Permutation).
  split; [exact H1|]. split; [exact H2|].
  destruct (proj2 (invoke_twice_same_metrics [] [] exampleVPA) _ _ H1 H2)
    as (_ & _ & HP & _ & HB).
  split; [exact HP | exact HB].
Defined.

(** The order of the blocks is fixed: where every container has at most one
    recognised resource, block-wise equality up to order is equality, so a
    family with the blocks of two containers exchanged is no second
    outcome. *)
Example swapped_blocks_excluded (m1 m2 : metric.Metric) :
  blockwisePermutation [1; 1] [m1; m2] [m2; m1] -> m1 = m2.
Proof.
  intros H. apply blockwisePermutation_small in H; [congruence|].
  repeat constructor.
Qed.

(** ** C6: an object of another dynamic type *)

(** C6, as the specification states it, fails: on an object whose dynamic
    type is not the VerticalPodAutoscaler pointer the wrapped function panics
    at its type assertion and returns no family, empty or not. *)
Lemma wrapVPAFunc_other_type_counterexample :
  wrapVPAFunc updateModeFunc (OtherObject "*v1.Pod") (Panics TypeAssertionFailed)
  /\ (forall fam, ~ wrapVPAFunc updateModeFunc (OtherObject "*v1.Pod") (Returns fam)).
Proof.
  split; [constructor|]. intros fam H. inversion H.
Qed.

(** C6, amended. For every typed function and every object that is not a
    VerticalPodAutoscaler pointer, the only outcome of the wrapped function
    is the panic of the type assertion, whatever the typed function is: no
    family is returned. *)
Theorem wrapVPAFunc_type_assertion_panics (f : TypedFunc) (obj : object) :
  (forall p, obj <> VPAObject p) ->
  forall o, wrapVPAFunc f obj o <-> o = Panics TypeAssertionFailed.
Proof.
  intros Hobj o. split.
  - inversion 1; subst; try reflexivity; by destruct (Hobj _ eq_refl).
  - intros ->. destruct obj as [p| |t]; [by destruct (Hobj p)| |]; constructor.
Qed.

Lemma wrapVPAFunc_type_assertion_panics_witness :
  (forall p, OtherObject "*v1.Pod" <> VPAObject p)
  /\ wrapVPAFunc updateModeFunc (OtherObject "*v1.Pod") (Panics TypeAssertionFailed).
Proof.
  assert (forall p, OtherObject "*v1.Pod" <> VPAObject p) as H by discriminate.
  split; [exact H|].
  apply (wrapVPAFunc_type_assertion_panics updateModeFunc _ H). reflexivity.
Defined.

(** ** C7: what the wrapper leaves alone *)

(** C7. A generator built from a wrapped function has the name, the help
    text and the kind it was declared with; and whenever the wrapped function
    returns a family, it is for a VerticalPodAutoscaler object, from a family
    of the typed function with the same number of metrics and the same
    values in the same order, whose label keys and label values were only
    extended at the front. The generators of [vpaMetricFamilies] have the
    nine declared names, in the declared order, and the kind Gauge, whatever
    the allow-lists are. *)
Theorem wrapVPAFunc_frame (f : TypedFunc) :
  (forall name help t deprecatedVersion,
     generator.Name
       (generator.NewFamilyGenerator name help t deprecatedVersion (wrapVPAFunc f)) = name
     /\ generator.Help
          (generator.NewFamilyGenerator name help t deprecatedVersion (wrapVPAFunc f)) = help
     /\ generator.Type_
          (generator.NewFamilyGenerator name help t deprecatedVersion (wrapVPAFunc f)) = t)
  /\ (forall obj fam',
        wrapVPAFunc f obj (Returns fam') ->
        exists vpa fam,
          obj = VPAObject (Some vpa)
          /\ f (Some vpa) (Returns fam)
          /\ length (metric.Metrics fam') = length (metric.Metrics fam)
          /\ metric.Value <$> metric.Metrics fam' = metric.Value <$> metric.Metrics fam
          /\ Forall2 (fun m m' =>
                        metric.LabelKeys m `suffix_of` metric.LabelKeys m'
                        /\ metric.LabelValues m `suffix_of` metric.LabelValues m')
                     (metric.Metrics fam) (metric.Metrics fam'))
  /\ (forall allowAnnotationsList allowLabelsList,
        generator.Name <$> vpaMetricFamilies allowAnnotationsList allowLabelsList
        = [descVerticalPodAutoscalerAnnotationsName;
           descVerticalPodAutoscalerLabelsName; updateModeName]
          ++ containerPoliciesNames ++ containerRecommendationsNames
        /\ Forall (fun g => generator.Type_ g = metric.Gauge)
                  (vpaMetricFamilies allowAnnotationsList allowLabelsList)).
Proof.
  split; [done|]. split; [|split; [reflexivity | repeat constructor]].
  intros obj fam' H. inversion H as [| | | |vpa fam Hf]; subst.
  exists vpa, fam. simpl. repeat split; [done| | |].
  - by rewrite length_fmap.
  - rewrite <- list_fmap_compose. by apply list_fmap_ext.
  - apply Forall2_fmap_r, Forall_Forall2_diag, Forall_forall.
    intros m _. split.
    + by exists descVerticalPodAutoscalerLabelsDefaultLabels.
    + by exists [metav1.Namespace (autoscaling.ObjectMeta vpa);
                 metav1.Name (autoscaling.ObjectMeta vpa);
                 autoscalingv1.APIVersion (targetRefOf vpa);
                 autoscalingv1.Kind (targetRefOf vpa);
                 autoscalingv1.Name (targetRefOf vpa)].
Qed.

Lemma wrapVPAFunc_frame_witness :
  wrapVPAFunc (containerPoliciesFunc autoscaling.MinAllowed)
    (VPAObject (Some exampleVPA)) (Returns exampleMinAllowedFamily)
  /\ exists vpa fam,
       VPAObject (Some exampleVPA) = VPAObject (Some vpa)
       /\ containerPoliciesFunc autoscaling.MinAllowed (Some vpa) (Returns fam)
       /\ length (metric.Metrics exampleMinAllowedFamily) = length (metric.Metrics fam)
       /\ metric.Value <$> metric.Metrics exampleMinAllowedFamily
          = metric.Value <$> metric.Metrics fam
       /\ Forall2 (fun m m' =>
                     metric.LabelKeys m `suffix_of` metric.LabelKeys m'
                     /\ metric.LabelValues m `suffix_of` metric.LabelValues m')
                  (metric.Metrics fam) (metric.Metrics exampleMinAllowedFamily).
Proof.
  split; [exact exampleMinAllowedFamily_run|].
  exact (proj1 (proj2 (wrapVPAFunc_frame (containerPoliciesFunc autoscaling.MinAllowed)))
               _ _ exampleMinAllowedFamily_run).
Defined.

(** ** C8: the list/watch factory *)

(** C8. For every backing client, namespace and options value, the list
    function made by [createVPAListWatchFunc] is the client's
    VerticalPodAutoscalers(ns).List applied to the context TODO and the
    options, and the watch function is VerticalPodAutoscalers(ns).Watch
    applied likewise: same result, same effect on the world. A client that
    records its calls records exactly one call per invocation, with the
    namespace and the options unchanged, whatever it answers (a result or an
    error): nothing is retried. *)
Theorem createVPAListWatchFunc_threads_parameters :
  (forall (W ListResult WatchResult K : Type)
          (vpaClient : vpaclientset_Interface W ListResult WatchResult)
          (kubeClient : K) (ns : string) (opts : metav1.ListOptions) (w : W),
     ListFunc (createVPAListWatchFunc vpaClient kubeClient ns) opts w
     = List (VerticalPodAutoscalers (AutoscalingV1beta2 vpaClient) ns)
            context.TODO opts w
     /\ WatchFunc (createVPAListWatchFunc vpaClient kubeClient ns) opts w
        = Watch (VerticalPodAutoscalers (AutoscalingV1beta2 vpaClient) ns)
                context.TODO opts w)
  /\ (forall (ListResult WatchResult K : Type)
             (answerList : clientCall -> ListResult)
             (answerWatch : clientCall -> WatchResult)
             (kubeClient : K) (ns : string) (opts : metav1.ListOptions)
             (log : list clientCall),
        ListFunc (createVPAListWatchFunc (recordingClient answerList answerWatch)
                    kubeClient ns) opts log
        = (answerList (ListCall ns context.TODO opts),
           log ++ [ListCall ns context.TODO opts])
        /\ WatchFunc (createVPAListWatchFunc (recordingClient answerList answerWatch)
                        kubeClient ns) opts log
           = (answerWatch (WatchCall ns context.TODO opts),
              log ++ [WatchCall ns context.TODO opts])).
Proof.
  split.
  - intros W ListResult WatchResult K vpaClient kubeClient ns opts w.
    split; reflexivity.
  - intros ListResult WatchResult K answerList answerWatch kubeClient ns opts log.
    split; reflexivity.
Qed.

Example createVPAListWatchFunc_example :
  (ListFunc (createVPAListWatchFunc (recordingClient id id) tt "ns1") exampleOptions []).2
  = [ListCall "ns1" context.TODO exampleOptions]
  /\ (WatchFunc (createVPAListWatchFunc (recordingClient id id) tt "ns1")
        exampleOptions [ListCall "ns1" context.TODO exampleOptions]).2
     = [ListCall "ns1" context.TODO exampleOptions;
        WatchCall "ns1" context.TODO exampleOptions].
Proof. split; reflexivity. Qed.

(** ** C9: the update-mode generator *)

Lemma foldl_appendUpdateMode objectMode :
  foldl (appendUpdateMode objectMode) [] updateModes = specUpdateModeMetrics objectMode.
Proof.
  unfold updateModes, specUpdateModeMetrics, specUpdateModeMetric, appendUpdateMode.
  unfold autoscaling.UpdateModeOff, autoscaling.UpdateModeInitial,
    autoscaling.UpdateModeRecreate, autoscaling.UpdateModeAuto.
  reflexivity.
Qed.

Lemma specUpdateModeMetrics_at_most_one objectMode i j mi mj :
  specUpdateModeMetrics objectMode !! i = Some mi ->
  specUpdateModeMetrics objectMode !! j = Some mj ->
  metric.Value mi = Float64.one -> metric.Value mj = Float64.one -> i = j.
Proof.
  unfold specUpdateModeMetrics, specUpdateModeMetric.
  destruct i as [|[|[|[|i]]]]; destruct j as [|[|[|[|j]]]]; simpl;
    intros [= <-] [= <-]; simpl; try reflexivity;
    repeat case_decide; subst; try discriminate.
Qed.

(** C9. For every VerticalPodAutoscaler object whose update policy and
    update mode are set, the one outcome of the update-mode function is a
    family of exactly four metrics, for the modes Off, Initial, Recreate and
    Auto in this order, each with the single key update_mode and the mode as
    its value, and with the value 1 when the object's mode is this mode and 0
    otherwise; the generator of [vpaMetricFamilies] returns these four
    metrics behind the default labels. At most one of the four values is 1,
    and all four are 0 when the object's mode is none of the four. *)
Theorem updateMode_metrics (vpa : autoscaling.VerticalPodAutoscaler)
    (updatePolicy : autoscaling.PodUpdatePolicy) (objectMode : string) :
  autoscaling.UpdatePolicy (autoscaling.Spec vpa) = Some updatePolicy ->
  autoscaling.UpdateMode_ updatePolicy = Some objectMode ->
  (forall o,
     updateModeFunc (Some vpa) o
     <-> o = Returns {| metric.Metrics := specUpdateModeMetrics objectMode |})
  /\ (forall allowAnnotationsList allowLabelsList g o,
        g ∈ vpaMetricFamilies allowAnnotationsList allowLabelsList ->
        generator.Name g = updateModeName ->
        generator.GenerateFunc_ g (VPAObject (Some vpa)) o
        <-> o = Returns (withDefaultLabels vpa (specUpdateModeMetrics objectMode)))
  /\ (forall mode,
        metric.Value (specUpdateModeMetric objectMode mode) = Float64.one
        <-> objectMode = mode)
  /\ (forall mode,
        metric.Value (specUpdateModeMetric objectMode mode) = Float64.zero
        <-> objectMode <> mode)
  /\ Float64.is_integer Float64.one 1
  /\ Float64.is_integer Float64.zero 0
  /\ (forall i j mi mj,
        specUpdateModeMetrics objectMode !! i = Some mi ->
        specUpdateModeMetrics objectMode !! j = Some mj ->
        metric.Value mi = Float64.one -> metric.Value mj = Float64.one -> i = j)
  /\ (objectMode ∉ ["Off"; "Initial"; "Recreate"; "Auto"] ->
      Forall (fun m => metric.Value m = Float64.zero)
             (specUpdateModeMetrics objectMode)).
Proof.
  intros Hup Hmode.
  assert (forall fam,
            match autoscaling.UpdatePolicy (autoscaling.Spec vpa) with
            | None => fam = {| metric.Metrics := [] |}
            | Some updatePolicy =>
                match autoscaling.UpdateMode_ updatePolicy with
                | None => fam = {| metric.Metrics := [] |}
                | Some objectMode =>
                    fam = {| metric.Metrics :=
                               foldl (appendUpdateMode objectMode) [] updateModes |}
                end
            end <-> fam = {| metric.Metrics := specUpdateModeMetrics objectMode |})
    as Hbody.
  { intros fam. by rewrite Hup, Hmode, foldl_appendUpdateMode. }
  split; [|split; [|split; [|split; [|split; [|split; [|split]]]]]].
  - intros o. split.
    + intros (fam & H%Hbody & ->). by subst.
    + intros ->. eexists. split; [apply Hbody|]; reflexivity.
  - intros allowA allowL g o Hg Hn.
    destruct generator_names_distinct
      as (D1 & D2 & D3 & D4 & D5 & D6 & D7 & D8 & D9 & D10).
    apply vpaMetricFamilies_by_name in Hg
      as [[Hm ->]|[[Hm ->]|[[Hm ->]|[[Hm [res ->]]|[Hm [res ->]]]]]];
      try (rewrite Hn in Hm);
      try (exfalso; first [ by apply D8 | by apply D9 | congruence ]).
    unfold updateModeFunc. rewrite wrapVPAFunc_onVPA. split.
    + intros (fam & H%Hbody & ->). by subst.
    + intros ->. eexists. split; [apply Hbody|]; reflexivity.
  - intros mode. unfold specUpdateModeMetric. simpl.
    case_decide; split; try done; discriminate.
  - intros mode. unfold specUpdateModeMetric. simpl.
    case_decide; split; try done; discriminate.
  - exact one_is_1.
  - split; [reflexivity | lia].
  - apply specUpdateModeMetrics_at_most_one.
  - rewrite !elem_of_cons, elem_of_nil. intros Hn.
    unfold specUpdateModeMetrics, specUpdateModeMetric.
    repeat constructor; simpl; rewrite decide_False; tauto.
Qed.

Lemma updateMode_metrics_witness :
  updateModeFunc (Some exampleVPA)
    (Returns {| metric.Metrics :=
                  [ {| metric.LabelKeys := ["update_mode"];
                       metric.LabelValues := ["Off"];
                       metric.Value := Float64.zero |};
                    {| metric.LabelKeys := ["update_mode"];
                       metric.LabelValues := ["Initial"];
                       metric.Value := Float64.zero |};
                    {| metric.LabelKeys := ["update_mode"];
                       metric.LabelValues := ["Recreate"];
                       metric.Value := Float64.one |};
                    {| metric.LabelKeys := ["update_mode"];
                       metric.LabelValues := ["Auto"];
                       metric.Value := Float64.zero |} ] |}).
Proof.
  apply (proj1 (updateMode_metrics exampleVPA
                  {| autoscaling.UpdateMode_ := Some autoscaling.UpdateModeRecreate |}
                  "Recreate" eq_refl eq_refl)).
  reflexivity.
Defined.

(** ** C10: the annotations and the labels generators *)

(** C10. For every VerticalPodAutoscaler object and all allow-lists, the
    one outcome of the annotations generator, and of the labels generator,
    is a returned family of exactly one metric, whose value is 1 and whose
    labels are the default identifying labels followed by the composed
    annotation (label) keys and values; when the object's annotation (label)
    map is empty or the allow-list lets no key pass, the metric has the
    default identifying labels only. *)
Theorem annotations_labels_one_metric
    (allowAnnotationsList allowLabelsList : list string)
    (vpa : autoscaling.VerticalPodAutoscaler) (g : generator.FamilyGenerator) :
  g ∈ vpaMetricFamilies allowAnnotationsList allowLabelsList ->
  forall (prefix : string) (kubeData : gmap string string) (allowList : list string),
    (generator.Name g = descVerticalPodAutoscalerAnnotationsName
     /\ prefix = "annotation"
     /\ kubeData = metav1.Annotations (autoscaling.ObjectMeta vpa)
     /\ allowList = allowAnnotationsList)
    \/ (generator.Name g = descVerticalPodAutoscalerLabelsName
        /\ prefix = "label"
        /\ kubeData = metav1.Labels (autoscaling.ObjectMeta vpa)
        /\ allowList = allowLabelsList) ->
    exists m,
      (forall o,
         generator.GenerateFunc_ g (VPAObject (Some vpa)) o
         <-> o = Returns {| metric.Metrics := [m] |})
      /\ metric.Value m = Float64.one
      /\ Float64.is_integer (metric.Value m) 1
      /\ metric.LabelKeys m =
         ["namespace"; "verticalpodautoscaler"; "target_api_version"; "target_kind";
          "target_name"]
         ++ (createPrometheusLabelKeysValues prefix kubeData allowList).1
      /\ metric.LabelValues m =
         specDefaultLabelValues vpa
         ++ (createPrometheusLabelKeysValues prefix kubeData allowList).2
      /\ (kubeData = ∅ \/ passesNoKey allowList kubeData ->
          metric.LabelKeys m =
          ["namespace"; "verticalpodautoscaler"; "target_api_version"; "target_kind";
           "target_name"]
          /\ metric.LabelValues m = specDefaultLabelValues vpa).
Proof.
  intros Hg prefix kubeData allowList Hcase.
  destruct generator_names_distinct
    as (D1 & D2 & D3 & D4 & D5 & D6 & D7 & D8 & D9 & D10).
  exists {| metric.LabelKeys :=
              ["namespace"; "verticalpodautoscaler"; "target_api_version";
               "target_kind"; "target_name"]
              ++ (createPrometheusLabelKeysValues prefix kubeData allowList).1;
            metric.LabelValues :=
              specDefaultLabelValues vpa
              ++ (createPrometheusLabelKeysValues prefix kubeData allowList).2;
            metric.Value := Float64.one |}.
  split; [|split; [|split; [|split; [|split]]]];
    [ | reflexivity | exact one_is_1 | reflexivity | reflexivity | ].
  - intros o.
    apply vpaMetricFamilies_by_name in Hg
      as [[Hm ->]|[[Hm ->]|[[Hm ->]|[[Hm [res ->]]|[Hm [res ->]]]]]];
      destruct Hcase as [(Hn & -> & -> & ->)|(Hn & -> & -> & ->)];
      try (rewrite Hn in Hm);
      try (exfalso; first [ by apply D4 | by apply D5 | by apply D6 | by apply D7
                          | congruence ]).
    + unfold annotationsFunc. rewrite wrapVPAFunc_onVPA.
      destruct (createPrometheusLabelKeysValues _ _ _) as [ks vs]. split.
      * intros (fam & -> & ->). reflexivity.
      * intros ->. eexists. split; reflexivity.
    + unfold labelsFunc. rewrite wrapVPAFunc_onVPA.
      destruct (createPrometheusLabelKeysValues _ _ _) as [ks vs]. split.
      * intros (fam & -> & ->). reflexivity.
      * intros ->. eexists. split; reflexivity.
  - intros Hnone. simpl.
    rewrite (createPrometheusLabelKeysValues_nothing prefix kubeData allowList Hnone).
    simpl. by rewrite app_nil_r.
Qed.

Lemma annotations_labels_one_metric_witness :
  wrapVPAFunc (annotationsFunc ["*"]) (VPAObject (Some exampleVPA))
    (Returns {| metric.Metrics :=
                  [ {| metric.LabelKeys :=
                         ["namespace"; "verticalpodautoscaler"; "target_api_version";
                          "target_kind"; "target_name"; "annotation_team_owner"];
                       metric.LabelValues :=
                         ["ns1"; "vpa1"; "extensions/v1beta1"; "Deployment";
                          "deployment1"; "sre"];
                       metric.Value := Float64.one |} ] |})
  /\ wrapVPAFunc (labelsFunc []) (VPAObject (Some exampleVPA))
       (Returns {| metric.Metrics :=
                     [ {| metric.LabelKeys :=
                            ["namespace"; "verticalpodautoscaler"; "target_api_version";
                             "target_kind"; "target_name"];
                          metric.LabelValues :=
                            ["ns1"; "vpa1"; "extensions/v1beta1"; "Deployment";
                             "deployment1"];
                          metric.Value := Float64.one |} ] |}).
Proof.
  split.
  - assert (generator.NewFamilyGenerator
              descVerticalPodAutoscalerAnnotationsName
              descVerticalPodAutoscalerAnnotationsHelp
              metric.Gauge ""
              (wrapVPAFunc (annotationsFunc ["*"])) ∈ vpaMetricFamilies ["*"] [])
      as Hg by (apply (list_elem_of_lookup_2 _ 0); reflexivity).
    destruct (annotations_labels_one_metric ["*"] [] exampleVPA _ Hg
                "annotation" (metav1.Annotations exampleMeta) ["*"]
                (or_introl (conj eq_refl (conj eq_refl (conj eq_refl eq_refl)))))
      as (m & Ho & Hv & _ & Hk & Hl & _).
    apply Ho. destruct m as [ks vs v]. simpl in Hv, Hk, Hl. subst.
    vm_compute. reflexivity.
  - assert (generator.NewFamilyGenerator
              descVerticalPodAutoscalerLabelsName
              descVerticalPodAutoscalerLabelsHelp
              metric.Gauge ""
              (wrapVPAFunc (labelsFunc [])) ∈ vpaMetricFamilies ["*"] [])
      as Hg by (apply (list_elem_of_lookup_2 _ 1); reflexivity).
    destruct (annotations_labels_one_metric ["*"] [] exampleVPA _ Hg
                "label" (metav1.Labels exampleMeta) []
                (or_intror (conj eq_refl (conj eq_refl (conj eq_refl eq_refl)))))
      as (m & Ho & Hv & _ & _ & _ & Hnone).
    apply Ho. destruct (Hnone (or_intror (or_introl eq_refl))) as [Hk Hl].
    destruct m as [ks vs v]. simpl in Hv, Hk, Hl. subst. reflexivity.
Defined.

(** * Further properties *)

(** ** The metrics of one resource list, counted *)

(** X1. Every result of [vpaResourcesToMetrics] has exactly one metric for
    each key of the resource list that the switch has a case for: as many
    metrics as such keys, hence at most four, at most as many as the list
    has entries, and none for the empty (or nil) list. *)
Theorem vpaResourcesToMetrics_count (containerName : string)
    (resources : gmap string resource.Quantity) (ms : list metric.Metric) :
  vpaResourcesToMetrics containerName resources ms ->
  length ms = size (dom resources ∩ recognizedResources)
  /\ length ms <= 4
  /\ length ms <= size resources
  /\ (resources = ∅ -> ms = []).
Proof.
  intros H.
  pose proof (vpaResourcesToMetrics_length _ _ _ H) as E.
  split; [exact E|]. split; [by eapply vpaResourcesToMetrics_length_le_4|]. split.
  - rewrite E, <- (size_dom resources). apply subseteq_size.
    apply intersection_subseteq_l.
  - intros ->. apply vpaResourcesToMetrics_inv in H as (entries & P & ->).
    rewrite map_to_list_empty in P. apply Permutation_nil_r in P. by subst.
Qed.

Lemma vpaResourcesToMetrics_count_witness :
  vpaResourcesToMetrics "c" exampleResources
    (resourcesToMetricsIn "c" (map_to_list exampleResources))
  /\ length (resourcesToMetricsIn "c" (map_to_list exampleResources)) = 2
  /\ size (dom exampleResources ∩ recognizedResources) = 2.
Proof.
  pose proof (vpaResourcesToMetrics_total "c" exampleResources) as H.
  split; [exact H|].
  pose proof (proj1 (vpaResourcesToMetrics_count _ _ _ H)) as E.
  split; [reflexivity|]. rewrite <- E. reflexivity.
Defined.

(** ** The families of the generators that read resource lists *)

(** X2. The family that a generator over the container policies (min
    allowed, max allowed) or over the container recommendations (lower bound,
    upper bound, target, uncapped target) returns is made of one block of
    metrics per container, in the order of the containers, each block a
    result of [vpaResourcesToMetrics] for that container behind the default
    labels; so it has at most four metrics per container. *)
Theorem resource_family_blocks (vpa : autoscaling.VerticalPodAutoscaler)
    (fam : metric.Family) :
  (forall resources,
     wrapVPAFunc (containerPoliciesFunc resources) (VPAObject (Some vpa)) (Returns fam) ->
     exists blocks,
       Forall2 (fun c block =>
                  vpaResourcesToMetrics (autoscaling.PolicyContainerName c)
                    (resources c) block)
               (default [] (containerPoliciesOf vpa)) blocks
       /\ fam = withDefaultLabels vpa (concat blocks)
       /\ length (metric.Metrics fam)
          <= 4 * length (default [] (containerPoliciesOf vpa)))
  /\ (forall resources,
        wrapVPAFunc (containerRecommendationsFunc resources) (VPAObject (Some vpa))
          (Returns fam) ->
        exists blocks,
          Forall2 (fun c block =>
                     vpaResourcesToMetrics (autoscaling.ContainerName c)
                       (resources c) block)
                  (default [] (containerRecommendationsOf vpa)) blocks
          /\ fam = withDefaultLabels vpa (concat blocks)
          /\ length (metric.Metrics fam)
             <= 4 * length (default [] (containerRecommendationsOf vpa))).
Proof.
  split; intros resources H.
  - apply containerPoliciesFunc_wrapped in H as (ms & H & ->).
    apply appendResourceMetrics_blocks in H as (blocks & HF & ->).
    exists blocks. split; [done|]. split; [done|].
    simpl. rewrite length_fmap. by eapply blocks_length.
  - apply containerRecommendationsFunc_wrapped in H as (ms & H & ->).
    apply appendResourceMetrics_blocks in H as (blocks & HF & ->).
    exists blocks. split; [done|]. split; [done|].
    simpl. rewrite length_fmap. by eapply blocks_length.
Qed.

Lemma resource_family_blocks_witness :
  wrapVPAFunc (containerPoliciesFunc autoscaling.MinAllowed)
    (VPAObject (Some exampleVPA)) (Returns exampleMinAllowedFamily)
  /\ length (metric.Metrics exampleMinAllowedFamily) <= 4 * 1.
Proof.
  split; [exact exampleMinAllowedFamily_run|].
  destruct (proj1 (resource_family_blocks exampleVPA exampleMinAllowedFamily)
              autoscaling.MinAllowed exampleMinAllowedFamily_run)
    as (blocks & _ & _ & L).
  exact L.
Defined.

(** X3. Every metric that one of these six generators returns has the
    eight label keys namespace, verticalpodautoscaler, target_api_version,
    target_kind, target_name, container, resource, unit, in this order, and
    is the conversion of an entry that the resource list of one of the
    containers of the object really has, behind the default label values: no
    metric is made up for a resource or a container that is not there. *)
Theorem resource_family_provenance (vpa : autoscaling.VerticalPodAutoscaler)
    (fam : metric.Family) :
  (forall resources,
     wrapVPAFunc (containerPoliciesFunc resources) (VPAObject (Some vpa)) (Returns fam) ->
     Forall (fun m =>
               metric.LabelKeys m = resourceLabelKeys
               /\ exists c m0,
                    c ∈ default [] (containerPoliciesOf vpa)
                    /\ fromEntry (autoscaling.PolicyContainerName c) (resources c) m0
                    /\ metric.LabelValues m
                       = specDefaultLabelValues vpa ++ metric.LabelValues m0
                    /\ metric.Value m = metric.Value m0)
            (metric.Metrics fam))
  /\ (forall resources,
        wrapVPAFunc (containerRecommendationsFunc resources) (VPAObject (Some vpa))
          (Returns fam) ->
        Forall (fun m =>
                  metric.LabelKeys m = resourceLabelKeys
                  /\ exists c m0,
                       c ∈ default [] (containerRecommendationsOf vpa)
                       /\ fromEntry (autoscaling.ContainerName c) (resources c) m0
                       /\ metric.LabelValues m
                          = specDefaultLabelValues vpa ++ metric.LabelValues m0
                       /\ metric.Value m = metric.Value m0)
               (metric.Metrics fam)).
Proof.
  assert (forall containerName res m0,
            fromEntry containerName res m0 ->
            metric.LabelKeys m0 = ["container"; "resource"; "unit"]) as HK.
  { intros cn res m0 (k & q & _ & _ & Hm). unfold specResourceMetric in Hm.
    repeat case_decide; by inversion Hm. }
  split; intros resources H.
  - apply containerPoliciesFunc_wrapped in H as (ms & H & ->).
    apply appendResourceMetrics_blocks in H as (blocks & HF & ->).
    simpl. apply Forall_fmap.
    eapply Forall_impl; [exact (blocks_fromEntry _ _ _ _ HF)|].
    intros m0 (c & Hc & Hm). simpl. split.
    + by rewrite (HK _ _ _ Hm).
    + exists c, m0. done.
  - apply containerRecommendationsFunc_wrapped in H as (ms & H & ->).
    apply appendResourceMetrics_blocks in H as (blocks & HF & ->).
    simpl. apply Forall_fmap.
    eapply Forall_impl; [exact (blocks_fromEntry _ _ _ _ HF)|].
    intros m0 (c & Hc & Hm). simpl. split.
    + by rewrite (HK _ _ _ Hm).
    + exists c, m0. done.
Qed.

Lemma resource_family_provenance_witness :
  wrapVPAFunc (containerPoliciesFunc autoscaling.MinAllowed)
    (VPAObject (Some exampleVPA)) (Returns exampleMinAllowedFamily)
  /\ Forall (fun m => metric.LabelKeys m = resourceLabelKeys)
            (metric.Metrics exampleMinAllowedFamily).
Proof.
  split; [exact exampleMinAllowedFamily_run|].
  eapply Forall_impl;
    [exact (proj1 (resource_family_provenance exampleVPA exampleMinAllowedFamily)
              autoscaling.MinAllowed exampleMinAllowedFamily_run)|].
  intros m [H _]. exact H.
Defined.

(** ** Distinct label values *)

Lemma sanitizeLabelName_recognized_inj k1 k2 :
  k1 ∈ recognizedResources -> k2 ∈ recognizedResources ->
  sanitizeLabelName k1 = sanitizeLabelName k2 -> k1 = k2.
Proof.
  unfold recognizedResources, v1.ResourceCPU, v1.ResourceStorage,
    v1.ResourceEphemeralStorage, v1.ResourceMemory.
  rewrite !elem_of_union, !elem_of_singleton.
  intros [[[->| ->]| ->]| ->] [[[->| ->]| ->]| ->] H;
    first [reflexivity | vm_compute in H; discriminate H].
Qed.

Lemma specResourceMetric_labelValues containerName k q m :
  specResourceMetric containerName (k, q) = Some m ->
  exists unit,
    metric.LabelValues m = [containerName; sanitizeLabelName k; unit].
Proof.
  unfold specResourceMetric. repeat case_decide; intros [= <-]; simpl; eauto.
Qed.

Lemma NoDup_labelValues_omap containerName
    (entries : list (string * resource.Quantity)) :
  NoDup entries.*1 ->
  NoDup (metric.LabelValues <$> omap (specResourceMetric containerName) entries).
Proof.
  induction entries as [|[k q] entries IH]; intros Hnd; [constructor|].
  apply NoDup_cons in Hnd as [Hk Hnd].
  change (omap (specResourceMetric containerName) ((k, q) :: entries))
    with (from_option
            (fun m => m :: omap (specResourceMetric containerName) entries)
            (omap (specResourceMetric containerName) entries)
            (specResourceMetric containerName (k, q))).
  destruct (specResourceMetric containerName (k, q)) as [m|] eqn:E;
    cbn [from_option]; [|by apply IH].
  rewrite fmap_cons. apply NoDup_cons. split; [|by apply IH].
  intros (m' & Hlv & ([k' q'] & Hin & E')%list_elem_of_omap)%list_elem_of_fmap.
  apply Hk.
  assert (k = k') as ->.
  { apply sanitizeLabelName_recognized_inj.
    - apply (specResourceMetric_is_Some containerName k q). rewrite E. eauto.
    - apply (specResourceMetric_is_Some containerName k' q'). rewrite E'. eauto.
    - apply specResourceMetric_labelValues in E as [u E].
      apply specResourceMetric_labelValues in E' as [u' E'].
      rewrite E, E' in Hlv. congruence. }
  apply list_elem_of_fmap. by exists (k', q').
Qed.

Lemma vpaResourcesToMetrics_NoDup containerName
    (resources : gmap string resource.Quantity) block :
  vpaResourcesToMetrics containerName resources block ->
  NoDup (metric.LabelValues <$> block).
Proof.
  intros (entries & P & ->)%vpaResourcesToMetrics_inv.
  apply NoDup_labelValues_omap. rewrite P. apply NoDup_fst_map_to_list.
Qed.

Lemma fromEntry_container containerName res m :
  fromEntry containerName res m -> metric.LabelValues m !! 0 = Some containerName.
Proof.
  intros (k & q & _ & _ & [u E]%specResourceMetric_labelValues). by rewrite E.
Qed.

Lemma blocks_NoDup {C : Type} (name : C -> string)
    (resources : C -> v1.ResourceList) cs blocks :
  NoDup (name <$> cs) ->
  Forall2 (fun c block => vpaResourcesToMetrics (name c) (resources c) block)
          cs blocks ->
  NoDup (metric.LabelValues <$> concat blocks).
Proof.
  intros Hnd HF. induction HF as [|c block cs blocks Hb HF IH]; [constructor|].
  rewrite fmap_cons in Hnd. apply NoDup_cons in Hnd as [Hc Hnd].
  simpl. rewrite fmap_app. apply NoDup_app. split; [|split].
  - by eapply vpaResourcesToMetrics_NoDup.
  - intros lv (m & -> & Hm)%list_elem_of_fmap (m' & E & Hm')%list_elem_of_fmap.
    apply Hc.
    pose proof (vpaResourcesToMetrics_fromEntry _ _ _ Hb) as F.
    rewrite Forall_forall in F. apply F, fromEntry_container in Hm.
    pose proof (blocks_fromEntry name resources _ _ HF) as F'.
    rewrite Forall_forall in F'. destruct (F' _ Hm') as (c' & Hc' & Hm'').
    apply fromEntry_container in Hm''. rewrite E in Hm.
    assert (name c = name c') as -> by congruence.
    apply list_elem_of_fmap. by exists c'.
  - by apply IH.
Qed.

Lemma withDefaultLabels_NoDup vpa ms :
  NoDup (metric.LabelValues <$> ms) ->
  NoDup (metric.LabelValues <$> metric.Metrics (withDefaultLabels vpa ms)).
Proof.
  intros H. unfold withDefaultLabels. cbn [metric.Metrics].
  rewrite <- list_fmap_compose.
  rewrite (list_fmap_ext _ (app (specDefaultLabelValues vpa) ∘ metric.LabelValues) ms)
    by (intros; reflexivity).
  rewrite list_fmap_compose.
  apply NoDup_fmap_2; [|done]. intros l1 l2. apply app_inv_head.
Qed.

Lemma withDefaultLabels_NoDup_inv vpa ms :
  NoDup (metric.LabelValues <$> metric.Metrics (withDefaultLabels vpa ms)) ->
  NoDup (metric.LabelValues <$> ms).
Proof.
  unfold withDefaultLabels. cbn [metric.Metrics].
  rewrite <- list_fmap_compose.
  rewrite (list_fmap_ext _ (app (specDefaultLabelValues vpa) ∘ metric.LabelValues) ms)
    by (intros; reflexivity).
  rewrite list_fmap_compose. apply NoDup_fmap_1.
Qed.

(** Every recognised key of the resource list has its metric in the
    result. *)
Lemma vpaResourcesToMetrics_complete containerName
    (resources : gmap string resource.Quantity) block k q :
  vpaResourcesToMetrics containerName resources block ->
  resources !! k = Some q -> k ∈ recognizedResources ->
  exists m, m ∈ block /\ specResourceMetric containerName (k, q) = Some m.
Proof.
  intros (entries & P & ->)%vpaResourcesToMetrics_inv Hq Hk.
  apply (specResourceMetric_is_Some containerName k q) in Hk as [m Hm].
  exists m. split; [|done]. apply list_elem_of_omap. exists (k, q).
  split; [|done]. rewrite P. by apply elem_of_map_to_list.
Qed.

Lemma specResourceMetric_labelValues_key containerName k q q' m m' :
  specResourceMetric containerName (k, q) = Some m ->
  specResourceMetric containerName (k, q') = Some m' ->
  metric.LabelValues m = metric.LabelValues m'.
Proof.
  unfold specResourceMetric.
  repeat case_decide; intros [= <-] [= <-]; reflexivity.
Qed.

Lemma elem_of_concat_lookup {A : Type} (ls : list (list A)) j b x :
  ls !! j = Some b -> x ∈ b -> x ∈ concat ls.
Proof.
  revert j. induction ls as [|l ls IH]; intros [|j] Hj Hx; try done; simpl in *.
  - injection Hj as ->. apply elem_of_app. by left.
  - apply elem_of_app. right. by eapply IH.
Qed.

Lemma fmap_concat_not_NoDup {A B : Type} (f : A -> B) (ls : list (list A))
    i j a b x y :
  i <> j -> ls !! i = Some a -> ls !! j = Some b ->
  x ∈ a -> y ∈ b -> f x = f y ->
  ~ NoDup (f <$> concat ls).
Proof.
  revert i j. induction ls as [|l ls IH]; intros [|i] [|j] Hij Hi Hj Hx Hy E Hnd;
    try done; simpl in Hi, Hj, Hnd;
    rewrite fmap_app in Hnd; apply NoDup_app in Hnd as (_ & Hd & Hnd).
  - injection Hi as ->. apply (Hd (f x)).
    + apply list_elem_of_fmap. by exists x.
    + rewrite E. apply list_elem_of_fmap. exists y. split; [done|].
      by eapply elem_of_concat_lookup.
  - injection Hj as ->. apply (Hd (f y)).
    + apply list_elem_of_fmap. by exists y.
    + rewrite <- E. apply list_elem_of_fmap. exists x. split; [done|].
      by eapply elem_of_concat_lookup.
  - eapply (IH i j); [congruence|done..].
Qed.

Lemma blocks_repeatedEntry {C : Type} (name : C -> string)
    (resources : C -> v1.ResourceList) cs blocks :
  repeatedEntry name resources cs ->
  Forall2 (fun c block => vpaResourcesToMetrics (name c) (resources c) block)
          cs blocks ->
  ~ NoDup (metric.LabelValues <$> concat blocks).
Proof.
  intros (i & j & ci & cj & k & Hij & Hi & Hj & Hname & Hk & [qi Hqi] & [qj Hqj]) HF.
  destruct (Forall2_lookup_l _ _ _ _ _ HF Hi) as (bi & Hbi & Ri).
  destruct (Forall2_lookup_l _ _ _ _ _ HF Hj) as (bj & Hbj & Rj).
  destruct (vpaResourcesToMetrics_complete _ _ _ _ _ Ri Hqi Hk) as (mi & Hmi & Ei).
  destruct (vpaResourcesToMetrics_complete _ _ _ _ _ Rj Hqj Hk) as (mj & Hmj & Ej).
  rewrite Hname in Ei.
  eapply (fmap_concat_not_NoDup metric.LabelValues blocks i j); try done.
  by eapply specResourceMetric_labelValues_key.
Qed.

(** X4. When the containers of the object have pairwise distinct names, no
    two metrics of a family that one of these six generators returns have the
    same label values. When two containers at different positions of the
    list have the same name and the resource lists that the generator reads
    from them share a recognised key, every family that the generator
    returns holds two metrics with the same label values: nothing in the
    loop removes duplicates. *)
Theorem resource_family_distinct_labels (vpa : autoscaling.VerticalPodAutoscaler)
    (fam : metric.Family) :
  (forall resources,
     NoDup (autoscaling.PolicyContainerName <$> default [] (containerPoliciesOf vpa)) ->
     wrapVPAFunc (containerPoliciesFunc resources) (VPAObject (Some vpa)) (Returns fam) ->
     NoDup (metric.LabelValues <$> metric.Metrics fam))
  /\ (forall resources,
        NoDup (autoscaling.ContainerName
                 <$> default [] (containerRecommendationsOf vpa)) ->
        wrapVPAFunc (containerRecommendationsFunc resources) (VPAObject (Some vpa))
          (Returns fam) ->
        NoDup (metric.LabelValues <$> metric.Metrics fam))
  /\ (forall resources,
        repeatedEntry autoscaling.PolicyContainerName resources
          (default [] (containerPoliciesOf vpa)) ->
        wrapVPAFunc (containerPoliciesFunc resources) (VPAObject (Some vpa))
          (Returns fam) ->
        ~ NoDup (metric.LabelValues <$> metric.Metrics fam))
  /\ (forall resources,
        repeatedEntry autoscaling.ContainerName resources
          (default [] (containerRecommendationsOf vpa)) ->
        wrapVPAFunc (containerRecommendationsFunc resources) (VPAObject (Some vpa))
          (Returns fam) ->
        ~ NoDup (metric.LabelValues <$> metric.Metrics fam)).
Proof.
  split; [|split; [|split]]; intros resources Hnd H.
  - apply containerPoliciesFunc_wrapped in H as (ms & H & ->).
    apply appendResourceMetrics_blocks in H as (blocks & HF & ->).
    apply withDefaultLabels_NoDup. by eapply blocks_NoDup.
  - apply containerRecommendationsFunc_wrapped in H as (ms & H & ->).
    apply appendResourceMetrics_blocks in H as (blocks & HF & ->).
    apply withDefaultLabels_NoDup. by eapply blocks_NoDup.
  - apply containerPoliciesFunc_wrapped in H as (ms & H & ->).
    apply appendResourceMetrics_blocks in H as (blocks & HF & ->).
    intros Hl%withDefaultLabels_NoDup_inv.
    by eapply blocks_repeatedEntry.
  - apply containerRecommendationsFunc_wrapped in H as (ms & H & ->).
    apply appendResourceMetrics_blocks in H as (blocks & HF & ->).
    intros Hl%withDefaultLabels_NoDup_inv.
    by eapply blocks_repeatedEntry.
Qed.

Lemma twoContainerMinAllowedFamily_run :
  wrapVPAFunc (containerPoliciesFunc autoscaling.MinAllowed)
    (VPAObject (Some twoContainerVPA)) (Returns twoContainerMinAllowedFamily).
Proof.
  apply containerPoliciesFunc_wrapped.
  exists (concat [resourcesToMetricsIn "app" (map_to_list exampleResources);
                  resourcesToMetricsIn "sidecar" (map_to_list cpuOnlyResources)]).
  split; [|reflexivity].
  apply appendResourceMetrics_blocks.
  exists [resourcesToMetricsIn "app" (map_to_list exampleResources);
          resourcesToMetricsIn "sidecar" (map_to_list cpuOnlyResources)].
  split; [|reflexivity].
  change (default [] (containerPoliciesOf twoContainerVPA))
    with [appPolicy; sidecarPolicy].
  constructor; [exact (vpaResourcesToMetrics_total "app" exampleResources)|].
  constructor; [exact (vpaResourcesToMetrics_total "sidecar" cpuOnlyResources)|].
  constructor.
Defined.

Lemma repeatedEntry_repeatedNameVPA :
  repeatedEntry autoscaling.PolicyContainerName autoscaling.MinAllowed
    (default [] (containerPoliciesOf repeatedNameVPA)).
Proof.
  exists 0, 1, appPolicy, appPolicy, "cpu".
  split; [discriminate|]. split; [reflexivity|]. split; [reflexivity|].
  split; [reflexivity|].
  split; [apply (bool_decide_unpack _); vm_compute; reflexivity|].
  split; exists (resource.ofMilli 500); vm_compute; reflexivity.
Defined.

Lemma resource_family_distinct_labels_witness :
  NoDup (autoscaling.PolicyContainerName
           <$> default [] (containerPoliciesOf twoContainerVPA))
  /\ wrapVPAFunc (containerPoliciesFunc autoscaling.MinAllowed)
       (VPAObject (Some twoContainerVPA)) (Returns twoContainerMinAllowedFamily)
  /\ NoDup (metric.LabelValues <$> metric.Metrics twoContainerMinAllowedFamily)
  /\ length (metric.Metrics twoContainerMinAllowedFamily) = 3.
Proof.
  assert (NoDup (autoscaling.PolicyContainerName
                   <$> default [] (containerPoliciesOf twoContainerVPA))) as Hnd.
  { change (autoscaling.PolicyContainerName
              <$> default [] (containerPoliciesOf twoContainerVPA))
      with ["app"; "sidecar"].
    apply NoDup_cons. split; [|apply NoDup_singleton].
    intros H%list_elem_of_singleton. discriminate H. }
  split; [exact Hnd|]. split; [exact twoContainerMinAllowedFamily_run|].
  split; [|vm_compute; reflexivity].
  exact (proj1 (resource_family_distinct_labels twoContainerVPA
                  twoContainerMinAllowedFamily)
           autoscaling.MinAllowed Hnd twoContainerMinAllowedFamily_run).
Defined.

(** The object [repeatedNameVPA], whose two policies have the same name and
    the same resource list: the label values of its min-allowed family
    repeat, whatever the order in which the lists are visited. *)
Example repeated_container_name_duplicates fam :
  wrapVPAFunc (containerPoliciesFunc autoscaling.MinAllowed)
    (VPAObject (Some repeatedNameVPA)) (Returns fam) ->
  ~ NoDup (metric.LabelValues <$> metric.Metrics fam).
Proof.
  intros H Hnd.
  apply containerPoliciesFunc_wrapped in H as (ms & H & ->).
  apply appendResourceMetrics_blocks in H as (blocks & HF & ->).
  change (default [] (containerPoliciesOf repeatedNameVPA))
    with [appPolicy; appPolicy] in HF.
  apply Forall2_cons_inv_l in HF as (b1 & bs & H1 & HF & ->).
  apply Forall2_cons_inv_l in HF as (b2 & bs' & H2 & HF & ->).
  apply Forall2_nil_inv_l in HF as ->.
  change (autoscaling.PolicyContainerName appPolicy) with "app" in H1, H2.
  change (autoscaling.MinAllowed appPolicy) with exampleResources in H1, H2.
  assert (forall b, vpaResourcesToMetrics "app" exampleResources b ->
                    exampleCPUMetric "app" ∈ b) as Hcpu.
  { intros b (e & P & ->)%vpaResourcesToMetrics_inv.
    assert (omap (specResourceMetric "app") e
            ≡ₚ [exampleCPUMetric "app"; exampleMemoryMetric "app"]) as ->
      by (rewrite <- exampleResources_metrics; by apply omap_Permutation).
    left. }
  unfold withDefaultLabels in Hnd. cbn [metric.Metrics concat app] in Hnd.
  rewrite app_nil_r in Hnd.
  apply NoDup_fmap_1, NoDup_fmap_1, NoDup_app in Hnd as (_ & Hd & _).
  by apply (Hd (exampleCPUMetric "app") (Hcpu b1 H1)), Hcpu.
Qed.

(** ** A nil VerticalPodAutoscaler pointer *)

(** X5. On an object that is a nil VerticalPodAutoscaler pointer the
    wrapped function never returns a family, whatever the typed function is:
    every outcome is a panic; for the nine generators of [vpaMetricFamilies]
    the one outcome is the panic of a nil pointer dereference. *)
Theorem wrapVPAFunc_nil_pointer_panics :
  (forall (f : TypedFunc) o,
     wrapVPAFunc f (VPAObject None) o -> exists e, o = Panics e)
  /\ (forall allowAnnotationsList allowLabelsList g o,
        g ∈ vpaMetricFamilies allowAnnotationsList allowLabelsList ->
        generator.GenerateFunc_ g (VPAObject None) o
        <-> o = Panics NilPointerDereference).
Proof.
  split.
  - intros f o H. inversion H; subst; eauto.
  - intros allowA allowL g o Hg.
    apply vpaMetricFamilies_elem in Hg as (f & Hf & ->).
    assert (forall r, f None r <-> r = Panics NilPointerDereference) as Hnone
      by (vpaTypedFuncs_cases Hf; reflexivity).
    split.
    + inversion 1 as [| |p e Hp|fam Hp|]; subst; [|done].
      by apply Hnone in Hp as [= ->].
    + intros ->. constructor. by apply Hnone.
Qed.

Lemma wrapVPAFunc_nil_pointer_panics_witness :
  wrapVPAFunc updateModeFunc (VPAObject None) (Panics NilPointerDereference)
  /\ exists e, Panics (A := metric.Family) NilPointerDereference = Panics e.
Proof.
  assert (wrapVPAFunc updateModeFunc (VPAObject None)
            (Panics NilPointerDereference)) as H
    by (constructor; reflexivity).
  split; [exact H|].
  exact (proj1 wrapVPAFunc_nil_pointer_panics updateModeFunc _ H).
Defined.

(** ** The update mode of the object among the four *)

(** X6. When the update mode of the object is one of Off, Initial, Recreate
    and Auto, exactly one metric of the update-mode family has the value 1:
    the one whose label value is the object's mode; every other metric has
    the value 0. *)
Theorem updateMode_exactly_one (vpa : autoscaling.VerticalPodAutoscaler)
    (updatePolicy : autoscaling.PodUpdatePolicy) (objectMode : string)
    (fam : metric.Family) :
  autoscaling.UpdatePolicy (autoscaling.Spec vpa) = Some updatePolicy ->
  autoscaling.UpdateMode_ updatePolicy = Some objectMode ->
  objectMode ∈ updateModes ->
  updateModeFunc (Some vpa) (Returns fam) ->
  exists i m,
    metric.Metrics fam !! i = Some m
    /\ metric.LabelValues m = [objectMode]
    /\ metric.Value m = Float64.one
    /\ (forall j m',
          metric.Metrics fam !! j = Some m' -> j <> i ->
          metric.Value m' = Float64.zero /\ metric.LabelValues m' <> [objectMode]).
Proof.
  intros Hup Hmode Hin H. apply onVPA_returns in H.
  rewrite Hup, Hmode, foldl_appendUpdateMode in H. subst fam.
  unfold updateModes, autoscaling.UpdateModeOff, autoscaling.UpdateModeInitial,
    autoscaling.UpdateModeRecreate, autoscaling.UpdateModeAuto in Hin.
  rewrite !elem_of_cons, elem_of_nil in Hin.
  destruct Hin as [->|[->|[->|[->|[]]]]];
    [exists 0 | exists 1 | exists 2 | exists 3];
    (eexists; split; [reflexivity|]; split; [reflexivity|]; split; [reflexivity|]);
    intros [|[|[|[|j]]]] m' Hm' Hj; try done;
    apply (inj Some) in Hm'; subst m'; split; done.
Qed.

Lemma updateMode_exactly_one_witness :
  updateModeFunc (Some exampleVPA)
    (Returns {| metric.Metrics := specUpdateModeMetrics "Recreate" |})
  /\ exists i m,
       specUpdateModeMetrics "Recreate" !! i = Some m
       /\ metric.LabelValues m = ["Recreate"]
       /\ metric.Value m = Float64.one.
Proof.
  assert (updateModeFunc (Some exampleVPA)
            (Returns {| metric.Metrics := specUpdateModeMetrics "Recreate" |})) as H
    by (apply onVPA_returns; reflexivity).
  split; [exact H|].
  destruct (updateMode_exactly_one exampleVPA
              {| autoscaling.UpdateMode_ := Some autoscaling.UpdateModeRecreate |}
              "Recreate" _ eq_refl eq_refl
              (list_elem_of_lookup_2 updateModes 2 "Recreate" eq_refl) H)
    as (i & m & H1 & H2 & H3 & _).
  exists i, m. split; [exact H1|]. split; [exact H2 | exact H3].
Defined.

(** ** The two loops on metrics behind pointers *)

(** X7. The loops that end [vpaResourcesToMetrics] and the wrapper assign
    through the pointers of a family. When the pointers are pairwise
    distinct, the two loops one after the other give every metric of the
    family the three keys of a resource metric behind the five default keys
    and the default values in front of its values, once each, keep its
    value, and leave every metric outside the family as it was; through a
    pointer that occurs twice in the family the wrapper's loop would prepend
    the default labels twice. *)
Theorem label_loops_in_place (vpa : autoscaling.VerticalPodAutoscaler)
    (ptrs : list nat) (h : store) :
  NoDup ptrs ->
  let wrap := prependDefaultLabels vpa (targetRefOf vpa) in
  let h' := updateEach wrap ptrs (updateEach setLabelKeys ptrs h) in
  contents h' ptrs = (fun m => wrap (setLabelKeys m)) <$> contents h ptrs
  /\ Forall (fun m => metric.LabelKeys m = resourceLabelKeys) (contents h' ptrs)
  /\ (metric.Value <$> contents h' ptrs) = (metric.Value <$> contents h ptrs)
  /\ (forall p, p ∉ ptrs -> h' !! p = h !! p)
  /\ (forall p m, h !! p = Some m ->
        contents (updateEach wrap [p; p] h) [p] = [wrap (wrap m)]).
Proof.
  intros Hnd wrap h'. subst h'.
  assert (contents (updateEach wrap ptrs (updateEach setLabelKeys ptrs h)) ptrs
          = (fun m => wrap (setLabelKeys m)) <$> contents h ptrs) as E.
  { rewrite !updateEach_distinct by done. by rewrite <- list_fmap_compose. }
  split; [exact E|]. rewrite E. split; [|split; [|split]].
  - apply Forall_fmap, Forall_true. reflexivity.
  - rewrite <- list_fmap_compose. reflexivity.
  - intros p Hp. by rewrite !updateEach_lookup_notin.
  - intros p m Hm.
    change (updateEach wrap [p; p] h) with (alter wrap p (alter wrap p h)).
    change (contents ?h' [p]) with (from_option (fun m => [m]) [] (h' !! p)).
    rewrite !lookup_alter_eq, Hm. reflexivity.
Qed.

Lemma label_loops_in_place_witness :
  contents
    (updateEach (prependDefaultLabels exampleVPA (targetRefOf exampleVPA)) [0; 1]
       (updateEach setLabelKeys [0; 1]
          {[ 0 := exampleCPUMetric "c"; 1 := exampleMemoryMetric "c";
             2 := exampleCPUMetric "d" ]}))
    [0; 1]
  = (fun m => prependDefaultLabels exampleVPA (targetRefOf exampleVPA) (setLabelKeys m))
    <$> [exampleCPUMetric "c"; exampleMemoryMetric "c"].
Proof.
  assert (NoDup [0; 1]) as Hnd
    by (apply NoDup_cons; split;
        [intros H%list_elem_of_singleton; discriminate H
        |apply NoDup_singleton]).
  exact (proj1 (label_loops_in_place exampleVPA [0; 1]
                  {[ 0 := exampleCPUMetric "c"; 1 := exampleMemoryMetric "c";
                     2 := exampleCPUMetric "d" ]} Hnd)).
Defined.

(** ** Sequences of list and watch invocations *)

(** X8. Whatever sequence of list and watch invocations is made through
    pairs of [createVPAListWatchFunc], for whatever namespaces and options,
    a client that records its calls receives exactly one call per
    invocation, in the order of the invocations, each with the namespace
    and the options of its invocation and with [context.TODO]; the pairs
    keep no state between invocations, and whatever the client answers,
    nothing is retried or left out. *)
Theorem runInvocations_calls {ListResult WatchResult : Type}
    (answerList : clientCall -> ListResult)
    (answerWatch : clientCall -> WatchResult)
    (invocations : list invocation) (log : list clientCall) :
  runInvocations (recordingClient answerList answerWatch) invocations log
  = log ++ (expectedCall <$> invocations).
Proof.
  revert log. induction invocations as [|i invocations IH]; intros log.
  - simpl. by rewrite app_nil_r.
  - change (runInvocations ?c (i :: invocations) log)
      with (runInvocations c invocations
              match i with
              | InvokeList ns opts =>
                  (ListFunc (createVPAListWatchFunc c tt ns) opts log).2
              | InvokeWatch ns opts =>
                  (WatchFunc (createVPAListWatchFunc c tt ns) opts log).2
              end).
    rewrite IH. destruct i; simpl; by rewrite <- app_assoc.
Qed.

(** ** Objects whose resource lists have one recognised resource *)

Lemma vpaResourcesToMetrics_unique containerName resources ms1 ms2 :
  atMostOneRecognized resources ->
  vpaResourcesToMetrics containerName resources ms1 ->
  vpaResourcesToMetrics containerName resources ms2 ->
  ms1 = ms2.
Proof.
  unfold atMostOneRecognized. intros Hle H1 H2.
  pose proof (vpaResourcesToMetrics_Permutation _ _ _ _ H1 H2) as P.
  apply vpaResourcesToMetrics_length in H1. rewrite <- H1 in Hle.
  destruct ms1 as [|m1 [|m1' ms1]]; simpl in Hle; [| |lia].
  - by apply Permutation_nil_l in P.
  - by apply Permutation_singleton_l in P.
Qed.

Lemma appendResourceMetrics_unique {C : Type} (name : C -> string)
    (resources : C -> v1.ResourceList) cs ms ms1 ms2 :
  Forall (fun c => atMostOneRecognized (resources c)) cs ->
  appendResourceMetrics name resources cs ms ms1 ->
  appendResourceMetrics name resources cs ms ms2 ->
  ms1 = ms2.
Proof.
  intros HF H1. revert ms2.
  induction H1 as [|c cs ms new1 ms1 Hnew1 _ IH]; intros ms2 H2;
    inversion H2 as [|? ? ? new2 ? Hnew2 H2']; subst; [done|].
  apply Forall_cons in HF as [Hc HF].
  rewrite (vpaResourcesToMetrics_unique _ _ _ _ Hc Hnew1 Hnew2) in IH.
  by apply IH.
Qed.

Lemma containerPoliciesFunc_unique resources a fam1 fam2 :
  Forall (fun c => atMostOneRecognized (resources c))
         (default [] (containerPoliciesOf a)) ->
  containerPoliciesFunc resources (Some a) (Returns fam1) ->
  containerPoliciesFunc resources (Some a) (Returns fam2) ->
  fam1 = fam2.
Proof.
  unfold containerPoliciesOf. intros HF H1%onVPA_returns H2%onVPA_returns.
  destruct (autoscaling.ResourcePolicy (autoscaling.Spec a)) as [rp|];
    [destruct (autoscaling.ContainerPolicies rp) as [cs|]|]; try by subst.
  destruct H1 as (ms1 & H1 & ->), H2 as (ms2 & H2 & ->). f_equal.
  by eapply appendResourceMetrics_unique.
Qed.

Lemma containerRecommendationsFunc_unique resources a fam1 fam2 :
  Forall (fun c => atMostOneRecognized (resources c))
         (default [] (containerRecommendationsOf a)) ->
  containerRecommendationsFunc resources (Some a) (Returns fam1) ->
  containerRecommendationsFunc resources (Some a) (Returns fam2) ->
  fam1 = fam2.
Proof.
  unfold containerRecommendationsOf. intros HF H1%onVPA_returns H2%onVPA_returns.
  destruct (autoscaling.Recommendation (autoscaling.Status a)) as [r|];
    [destruct (autoscaling.ContainerRecommendations r) as [cs|]|]; try by subst.
  destruct H1 as (ms1 & H1 & ->), H2 as (ms2 & H2 & ->). f_equal.
  by eapply appendResourceMetrics_unique.
Qed.

Lemma vpaTypedFuncs_unique f allowAnnotationsList allowLabelsList a fam1 fam2 :
  singleResourceLists a ->
  f ∈ vpaTypedFuncs allowAnnotationsList allowLabelsList ->
  f (Some a) (Returns fam1) -> f (Some a) (Returns fam2) ->
  fam1 = fam2.
Proof.
  intros [HP HR] Hf H1 H2. vpaTypedFuncs_cases Hf.
  - apply onVPA_returns in H1, H2.
    destruct (createPrometheusLabelKeysValues _ _ _). by subst.
  - apply onVPA_returns in H1, H2.
    destruct (createPrometheusLabelKeysValues _ _ _). by subst.
  - apply onVPA_returns in H1, H2.
    destruct (autoscaling.UpdatePolicy _) as [up|];
      [destruct (autoscaling.UpdateMode_ up)|]; by subst.
  - eapply containerPoliciesFunc_unique; [|exact H1|exact H2].
    eapply Forall_impl; [exact HP|]. by intros c [? ?].
  - eapply containerPoliciesFunc_unique; [|exact H1|exact H2].
    eapply Forall_impl; [exact HP|]. by intros c [? ?].
  - eapply containerRecommendationsFunc_unique; [|exact H1|exact H2].
    eapply Forall_impl; [exact HR|]. by intros c (? & ? & ? & ?).
  - eapply containerRecommendationsFunc_unique; [|exact H1|exact H2].
    eapply Forall_impl; [exact HR|]. by intros c (? & ? & ? & ?).
  - eapply containerRecommendationsFunc_unique; [|exact H1|exact H2].
    eapply Forall_impl; [exact HR|]. by intros c (? & ? & ? & ?).
  - eapply containerRecommendationsFunc_unique; [|exact H1|exact H2].
    eapply Forall_impl; [exact HR|]. by intros c (? & ? & ? & ?).
Qed.

(** X9. When every resource list that the generators read from an object
    (min-allowed and max-allowed of every container policy, the four bounds
    of every container recommendation) has at most one of the keys cpu,
    storage, ephemeral-storage and memory, any two invocations of the
    generators of [vpaMetricFamilies] on the object give the same sequence
    of families, metric for metric and in the same order: the order in
    which a map is ranged over then does not show in the output. *)
Theorem invoke_deterministic_single_resource
    (allowAnnotationsList allowLabelsList : list string)
    (vpa : autoscaling.VerticalPodAutoscaler) (fams1 fams2 : list metric.Family) :
  singleResourceLists vpa ->
  invoke (vpaMetricFamilies allowAnnotationsList allowLabelsList)
    (VPAObject (Some vpa)) fams1 ->
  invoke (vpaMetricFamilies allowAnnotationsList allowLabelsList)
    (VPAObject (Some vpa)) fams2 ->
  fams1 = fams2.
Proof.
  intros Hs H1 H2. apply list_eq_Forall2.
  eapply Forall2_two_runs; [|exact H1|exact H2].
  intros g fam1 fam2 Hg R1 R2. simpl in R1, R2.
  apply vpaMetricFamilies_elem in Hg as (f & Hf & Hgf). rewrite Hgf in R1, R2.
  apply wrapVPAFunc_returns_inv in R1 as (t1 & T1 & ->).
  apply wrapVPAFunc_returns_inv in R2 as (t2 & T2 & ->).
  by rewrite (vpaTypedFuncs_unique _ _ _ _ _ _ Hs Hf T1 T2).
Qed.

Lemma singleResourceLists_cpuOnlyVPA : singleResourceLists cpuOnlyVPA.
Proof.
  assert (atMostOneRecognized cpuOnlyResources) as H.
  { unfold atMostOneRecognized.
    replace (dom cpuOnlyResources ∩ recognizedResources) with ({[ "cpu" ]} : gset string)
      by (apply (bool_decide_unpack _); vm_compute; reflexivity).
    by rewrite size_singleton. }
  split; [|constructor].
  constructor; [by split | constructor].
Defined.

Lemma invoke_deterministic_single_resource_witness :
  singleResourceLists cpuOnlyVPA
  /\ invokeIn id [] [] cpuOnlyVPA = invokeIn reverse [] [] cpuOnlyVPA.
Proof.
  split; [exact singleResourceLists_cpuOnlyVPA|].
  apply (invoke_deterministic_single_resource [] [] cpuOnlyVPA _ _
           singleResourceLists_cpuOnlyVPA).
  - apply invokeIn_sound. reflexivity.
  - apply invokeIn_sound. intros l. apply reverse_Permutation.
Defined.

(** ** When a generator returns *)

(** X10. On a non-nil VerticalPodAutoscaler pointer each of the nine
    generators of [vpaMetricFamilies] returns a family and has no panicking
    outcome, whatever the object's fields are; and a generator returns a
    family on no other kind of object. *)
Theorem generators_return_on_objects
    (allowAnnotationsList allowLabelsList : list string)
    (g : generator.FamilyGenerator) (vpa : autoscaling.VerticalPodAutoscaler) :
  g ∈ vpaMetricFamilies allowAnnotationsList allowLabelsList ->
  (exists fam, generator.GenerateFunc_ g (VPAObject (Some vpa)) (Returns fam))
  /\ (forall e, ~ generator.GenerateFunc_ g (VPAObject (Some vpa)) (Panics e))
  /\ (forall obj fam,
        generator.GenerateFunc_ g obj (Returns fam) ->
        exists vpa', obj = VPAObject (Some vpa')).
Proof.
  intros Hg. apply vpaMetricFamilies_elem in Hg as (f & Hf & ->).
  split; [|split].
  - destruct (vpaTypedFuncs_total _ _ _ vpa Hf) as [fam H].
    eexists. constructor. exact H.
  - intros e H%wrapVPAFunc_panics_inv.
    by eapply vpaTypedFuncs_no_panic.
  - intros obj fam H. inversion H; subst. eauto.
Qed.

Lemma generators_return_on_objects_witness :
  exists g,
    g ∈ vpaMetricFamilies [] []
    /\ generator.Name g = "kube_verticalpodautoscaler_spec_updatepolicy_updatemode"
    /\ exists fam, generator.GenerateFunc_ g (VPAObject (Some exampleVPA)) (Returns fam).
Proof.
  assert (exists g, vpaMetricFamilies [] [] !! 2 = Some g) as [g Hg]
    by (eexists; reflexivity).
  exists g.
  pose proof (list_elem_of_lookup_2 _ _ _ Hg) as Hin.
  split; [exact Hin|]. split; [by injection Hg as <-|].
  exact (proj1 (generators_return_on_objects [] [] g exampleVPA Hin)).
Defined.
